(** * base16-universal-manager: the rendering pipeline of [main.go]

    A shallow embedding of [getSavePath], [Base16Render], [run] and
    [main], with the properties of the specification that concern them
    and further properties read off the code.

    [main.go] talks to the outside through functions it does not define:
    Go's [os/user], [os] and [path/filepath] packages, the [mustache]
    engine, and helpers of the same package that live in other files
    ([NewConfig], the two lists with their loading, update and [Find],
    [DownloadFileToString], [MustacheContext], [WriteFile],
    [ReplaceMultiline], [exe_cmd]).  They are gathered in the class [Env]; the
    functions of [main.go] are written once, over any [Env], in a state
    monad that threads the outside world and records every call made to
    it.  Module [Unix] gives one concrete [Env] on which the functions
    are evaluated.  The package-level [appConf], which [run] sets and the
    other functions read, is passed along as an argument. *)

From Stdlib Require Import Ascii String.
From stdpp Require Import base strings list gmap.

Local Open Scope string_scope.
Local Open Scope list_scope.

(** ** Go values *)

(** A Go [error] is identified with its message; the nil error is [None]. *)
Definition error : Type := string.

(** [fmt.Errorf(msg + ": %w", err)] (and its [%v] form): the message of the
    wrapped error after the given prefix. *)
Definition Errorf (msg : string) (err : error) : error := msg +:+ err.

(** [s[n:]] *)
Fixpoint slice_from (n : nat) (s : string) : string :=
  match n, s with
  | O, _ => s
  | S n', String _ s' => slice_from n' s'
  | S _, EmptyString => EmptyString
  end.

(** [s[0] == c]; the source only indexes a string it knows to be non-empty. *)
Definition first_byte_is (s : string) (c : ascii) : bool :=
  bool_decide (String.get 0 s = Some c).
Arguments first_byte_is _%_string _%_char.

(** [strings.HasPrefix(s, prefix)] *)
Definition HasPrefix (s prefix : string) : bool := String.prefix prefix s.

(** [strings.HasSuffix(s, suffix)]:
    [len(s) >= len(suffix) && s[len(s)-len(suffix):] == suffix] *)
Definition HasSuffix (s suffix : string) : bool :=
  bool_decide (String.length suffix ≤ String.length s)%nat &&
  bool_decide (slice_from (String.length s - String.length suffix) s = suffix).

(** The directories on the way to [path]: its proper prefixes that stop
    before a separator, and the root of a rooted path. *)
Fixpoint ancestors_from (seen : string) (s : string) : list string :=
  match s with
  | EmptyString => []
  | String c s' =>
      let here :=
        if bool_decide (c = "/"%char)
        then [if decide (seen = "") then "/" else seen] else [] in
      here ++ ancestors_from (seen +:+ String c EmptyString) s'
  end.

Definition ancestors (path : string) : list string := ancestors_from "" path.

(** The double quote character, for the messages that contain one, and
    the newline. *)
Definition dquote : string := String "034"%char EmptyString.

Definition newline : string := String "010"%char EmptyString.

(** ** Data model *)

(** [*user.User], of which the source reads [HomeDir] only. *)
Record User := { HomeDir : string }.

(** A file of a template: [templ.Files[k]], of which [Extension] is read. *)
Record TemplateFile := { Extension : string }.

(** [Base16Template].  [Files] is a Go map that the source only ranges
    over: it is kept as the list of its entries in the order the [range]
    statement visits them, which Go leaves unspecified. *)
Record Base16Template := {
  Name : string;
  RawBaseURL : string;
  Files : list (string * TemplateFile)
}.

(** [appConf.Applications[app].Files[k]] *)
Record FileConfig := {
  Path : string;
  Mode : string;
  StartMarker : string;
  EndMarker : string
}.

(** [appConf.Applications[app]] *)
Record AppConfig := {
  Enabled : bool;
  Template : string;
  Hook : string;
  AppFiles : gmap string FileConfig
}.

(** [SetterConfig], the type of the global [appConf]: the fields that
    [main.go] reads. *)
Record SetterConfig := {
  Colorscheme : string;
  DryRun : bool;
  SchemesListFile : string;
  TemplatesListFile : string;
  SchemesCachePath : string;
  TemplatesCachePath : string;
  Applications : gmap string AppConfig
}.

(** The command line flags, as [kingpin.Parse] leaves them. *)
Record Flags := {
  updateFlag : bool;
  clearListFlag : bool;
  clearTemplatesFlag : bool;
  clearSchemesFlag : bool;
  configFileFlag : string;
  printConfigFlag : bool;
  schemeFlag : string
}.

(** Indexing a Go map with a missing key yields the zero value. *)
Definition zeroFileConfig : FileConfig :=
  {| Path := ""; Mode := ""; StartMarker := ""; EndMarker := "" |}.

Definition zeroAppConfig : AppConfig :=
  {| Enabled := false; Template := ""; Hook := ""; AppFiles := ∅ |}.

(** [appConf.Applications[app]] *)
Definition application (appConf : SetterConfig) (app : string) : AppConfig :=
  default zeroAppConfig (Applications appConf !! app).

(** [appConf.Applications[app].Files[k]] *)
Definition fileConfig (appConf : SetterConfig) (app k : string) : FileConfig :=
  default zeroFileConfig (AppFiles (application appConf app) !! k).

(** ** The outside world *)

(** What [main.go] calls and does not define.  An operation that touches
    the machine (user database, file system, network, processes) is a
    transformer of the abstract [World]; a Go result pair [(v, err)] is a
    pair whose second component is [None] for a nil error. *)
Class Env := {
  World : Type;
  Base16Colorscheme : Type;
  Base16ColorschemeList : Type;
  Base16TemplateList : Type;
  MustacheCtx : Type;
  (** [NewConfig(path)] *)
  NewConfig : string → World → (SetterConfig * option error) * World;
  (** [appConf.Show()] *)
  Show : SetterConfig → World → unit * World;
  (** [os.Remove(path)] and [os.RemoveAll(path)] *)
  os_Remove : string → World → option error * World;
  os_RemoveAll : string → World → option error * World;
  (** [LoadBase16ColorschemeList()] and [LoadBase16TemplateList()] *)
  LoadBase16ColorschemeList : World → (Base16ColorschemeList * option error) * World;
  LoadBase16TemplateList : World → (Base16TemplateList * option error) * World;
  (** [schemeList.UpdateSchemes()] and [templateList.UpdateTemplates()];
      the list comes back with the error, as the method may change it *)
  UpdateSchemes : Base16ColorschemeList → World →
                  (Base16ColorschemeList * option error) * World;
  UpdateTemplates : Base16TemplateList → World →
                    (Base16TemplateList * option error) * World;
  (** [schemeList.Find(name)] and [scheme.Name] *)
  FindScheme : Base16ColorschemeList → string → World →
               (Base16Colorscheme * option error) * World;
  scheme_Name : Base16Colorscheme → string;
  (** [user.Current()] *)
  user_Current : World → (User * option error) * World;
  (** [os.MkdirAll(path, os.ModePerm)] *)
  os_MkdirAll : string → World → option error * World;
  (** [filepath.Join(a, b)] *)
  filepath_Join : string → string → string;
  (** [DownloadFileToString(url)] *)
  DownloadFileToString : string → World → (string * option error) * World;
  (** [scheme.MustacheContext(extension)] *)
  MustacheContext : Base16Colorscheme → string → MustacheCtx * option error;
  (** [mustache.Render(data, context)] *)
  mustache_Render : string → MustacheCtx → string;
  (** [WriteFile(path, []byte(contents))] *)
  WriteFile : string → string → World → option error * World;
  (** [ReplaceMultiline(path, contents, startMarker, endMarker)] *)
  ReplaceMultiline : string → string → string → string → World → option error * World;
  (** [exe_cmd(command)]; its outcome is kept although the caller drops it *)
  exe_cmd : string → World → option error * World;
  (** [templateList.Find(name)] *)
  Find : Base16TemplateList → string → World → (Base16Template * option error) * World
}.

(** The calls a run makes to the outside, in the order it makes them. *)
Inductive event :=
| Println (args : list string)
| Printf (text : string)
| Eprintf (text : string)
| Call_NewConfig (path : string)
| Call_Show
| Call_Remove (path : string)
| Call_RemoveAll (path : string)
| Call_LoadSchemes
| Call_LoadTemplates
| Call_UpdateSchemes
| Call_UpdateTemplates
| Call_FindScheme (name : string)
| Call_user_Current
| Call_MkdirAll (path : string)
| Call_Download (url : string)
| Call_WriteFile (path contents : string)
| Call_ReplaceMultiline (path contents startMarker endMarker : string)
| Call_exe_cmd (command : string)
| Call_Find (name : string).

Section Program.
Context {E : Env}.

(** The state threaded through the program: the world, and the calls made
    so far (oldest first). *)
Record State := mkState { world : World; trace : list event }.

Definition M (A : Type) : Type := State → A * State.

#[global] Instance M_ret : MRet M := λ A a s, (a, s).

#[global] Instance M_bind : MBind M :=
  λ A B k m s, let '(a, s') := m s in k a s'.

(** A call to the outside: the world moves, the call is recorded. *)
Definition call {A} (e : event) (op : World → A * World) : M A :=
  λ s, let '(a, w) := op (world s) in
       (a, {| world := w; trace := trace s ++ [e] |}).

(** [fmt.Println(args...)] *)
Definition fmt_Println (args : list string) : M unit :=
  λ s, (tt, {| world := world s; trace := trace s ++ [Println args] |}).

(** [fmt.Printf] and [fmt.Fprintf(os.Stderr, ...)], with the text they
    print. *)
Definition fmt_Printf (text : string) : M unit :=
  λ s, (tt, {| world := world s; trace := trace s ++ [Printf text] |}).

Definition fmt_Eprintf (text : string) : M unit :=
  λ s, (tt, {| world := world s; trace := trace s ++ [Eprintf text] |}).

(** ** [getSavePath] *)

Definition getSavePath (path defaultFilename : string) : M (string * option error) :=
  if decide (path = "") then mret ("", None)
  else
    r ← (if first_byte_is path "~"
         then call Call_user_Current user_Current
         else mret ({| HomeDir := "" |}, None));
    match r with
    | (_, Some err) =>
        mret ("", Some (Errorf "could not get user home directory: " err))
    | (usr, None) =>
        let homeDir := HomeDir usr in
        let savePath :=
          if decide (path = "~") then homeDir
          else if HasPrefix path "~/" then filepath_Join homeDir (slice_from 2 path)
          else if negb (first_byte_is path "/") then filepath_Join "." path
          else path in
        if HasSuffix path "/" then
          err ← call (Call_MkdirAll savePath) (os_MkdirAll savePath);
          match err with
          | Some err => mret ("", Some (Errorf "could not create folder: " err))
          | None => mret (filepath_Join savePath defaultFilename, None)
          end
        else mret (savePath, None)
    end.

(** ** [Base16Render] *)

(** A [for k, v := range m] loop whose body may [return err]: the body
    yields [Some err] to return from the enclosing function and [None] to
    go on with the next entry (which is also what [continue] does). *)
Fixpoint for_range {K V} (entries : list (K * V))
    (body : K → V → M (option error)) : M (option error) :=
  match entries with
  | [] => mret None
  | (k, v) :: rest =>
      r ← body k v;
      match r with
      | Some err => mret (Some err)
      | None => for_range rest body
      end
  end.

(** The body of the loop of [Base16Render], for the entry [k, v] of
    [templ.Files]. *)
Definition render_file (appConf : SetterConfig) (templ : Base16Template)
    (scheme : Base16Colorscheme) (app k : string) (v : TemplateFile) : M (option error) :=
  let url := RawBaseURL templ +:+ "templates/" +:+ k +:+ ".mustache" in
  '(templFileData, err) ← call (Call_Download url) (DownloadFileToString url);
  match err with
  | Some err => mret (Some (Errorf "could not download template file: " err))
  | None =>
  let '(templContext, err) := MustacheContext scheme (Extension v) in
  match err with
  | Some err => mret (Some (Errorf "generating template context: " err))
  | None =>
  let renderedFile := mustache_Render templFileData templContext in
  '(savePath, err) ← getSavePath (Path (fileConfig appConf app k)) (k +:+ Extension v);
  match err with
  | Some err => mret (Some (Errorf "could not get location for save path: " err))
  | None =>
  if decide (savePath = "") then mret None
  else if DryRun appConf then
    fmt_Println ["    - (dryrun) file would be written to: "; savePath];;
    mret None
  else
    let mode := Mode (fileConfig appConf app k) in
    if decide (mode = "rewrite") then
      fmt_Println ["     - writing: "; savePath];;
      call (Call_WriteFile savePath renderedFile) (WriteFile savePath renderedFile)
    else if decide (mode = "replace") then
      fmt_Println ["     - replacing in: "; savePath];;
      let startMarker := StartMarker (fileConfig appConf app k) in
      let endMarker := EndMarker (fileConfig appConf app k) in
      call (Call_ReplaceMultiline savePath renderedFile startMarker endMarker)
           (ReplaceMultiline savePath renderedFile startMarker endMarker)
    else mret None
  end end end.

Definition Base16Render (appConf : SetterConfig) (templ : Base16Template)
    (scheme : Base16Colorscheme) (app : string) : M (option error) :=
  fmt_Println ["[RENDER]: Rendering template " +:+ dquote +:+ Name templ +:+ dquote];;
  r ← for_range (Files templ) (render_file appConf templ scheme app);
  match r with
  | Some err => mret (Some err)
  | None =>
      (if DryRun appConf then
         fmt_Println ["Not running hook, DryRun enabled: "; Hook (application appConf app)]
       else
         _ ← call (Call_exe_cmd (Hook (application appConf app)))
                  (exe_cmd (Hook (application appConf app)));
         mret ());;
      mret None
  end.

(** ** The application loop of [run] *)

(** [for app, appConfig := range appConf.Applications] of [run], over the
    entries of the map in the order the statement visits them, with the
    local [templateEnabled] threaded through. *)
Fixpoint range_Applications (appConf : SetterConfig) (templateList : Base16TemplateList)
    (scheme : Base16Colorscheme)
    (entries : list (string * AppConfig)) (templateEnabled : bool)
    : M (option error * bool) :=
  match entries with
  | [] => mret (None, templateEnabled)
  | (app, appConfig) :: rest =>
      let template := if decide (Template appConfig = "") then app else Template appConfig in
      if Enabled appConfig then
        '(tmpl, err) ← call (Call_Find template) (Find templateList template);
        match err with
        | Some err =>
            mret (Some (Errorf ("finding template " +:+ template +:+ ": ") err), templateEnabled)
        | None =>
            err ← Base16Render appConf tmpl scheme app;
            match err with
            | Some err => mret (Some (Errorf "rendering file: " err), templateEnabled)
            | None => range_Applications appConf templateList scheme rest true
            end
        end
      else range_Applications appConf templateList scheme rest templateEnabled
  end.

(** The end of [run], from its loop on: what is left to do once the
    configuration [appConf], the template list and the [scheme] are at
    hand. *)
Definition run_applications (appConf : SetterConfig) (templateList : Base16TemplateList)
    (scheme : Base16Colorscheme)
    (entries : list (string * AppConfig)) : M (option error) :=
  '(err, templateEnabled) ← range_Applications appConf templateList scheme entries false;
  match err with
  | Some err => mret (Some err)
  | None =>
      (if negb templateEnabled then fmt_Println ["No templates enabled"] else mret ());;
      mret None
  end.

(** ** [run] and [main] *)

(** What [run] does with the outcome of a deletion:
    [if err == nil { fmt.Printf(...) } else { fmt.Fprintf(os.Stderr, ...) }]. *)
Definition report (err : option error) (deleted failed : string) : M unit :=
  match err with
  | None => fmt_Printf (deleted +:+ newline)
  | Some err => fmt_Eprintf (failed +:+ err +:+ newline)
  end.

(** [run] once [NewConfig] has given the configuration [appConf]: from
    the test of the print flag to the end.  The flags are those
    [kingpin.Parse] has read; [range_of] is the order in which the runtime
    visits a map of applications. *)
Definition run_configured (flags : Flags)
    (range_of : gmap string AppConfig → list (string * AppConfig))
    (appConf : SetterConfig) : M (option error) :=
  (if printConfigFlag flags then call Call_Show (Show appConf) else mret ());;
  (if clearListFlag flags then
     err ← call (Call_Remove (SchemesListFile appConf)) (os_Remove (SchemesListFile appConf));
     report err ("Deleted cached colorscheme list " +:+ SchemesListFile appConf)
                "Error deleting cached colorscheme list: ";;
     err ← call (Call_Remove (TemplatesListFile appConf)) (os_Remove (TemplatesListFile appConf));
     report err ("Deleted cached template list " +:+ TemplatesListFile appConf)
                "Error deleting cached template list: "
   else mret ());;
  (if clearSchemesFlag flags then
     err ← call (Call_RemoveAll (SchemesCachePath appConf))
                (os_RemoveAll (SchemesCachePath appConf));
     report err ("Deleted cached colorscheme list " +:+ SchemesCachePath appConf)
                "Error deleting cached colorschemes: "
   else mret ());;
  (if clearTemplatesFlag flags then
     err ← call (Call_RemoveAll (TemplatesCachePath appConf))
                (os_RemoveAll (TemplatesCachePath appConf));
     report err ("Deleted cached templates " +:+ TemplatesCachePath appConf)
                "Error deleting cached templates: "
   else mret ());;
  _ ← call (Call_MkdirAll (SchemesCachePath appConf)) (os_MkdirAll (SchemesCachePath appConf));
  _ ← call (Call_MkdirAll (TemplatesCachePath appConf))
           (os_MkdirAll (TemplatesCachePath appConf));
  '(schemeList, err) ← call Call_LoadSchemes LoadBase16ColorschemeList;
  match err with
  | Some err => mret (Some (Errorf "loading colorscheme list: " err))
  | None =>
  '(templateList, err) ← call Call_LoadTemplates LoadBase16TemplateList;
  match err with
  | Some err => mret (Some (Errorf "loading template list: " err))
  | None =>
  updated ←
    (if updateFlag flags then
       '(schemeList, err) ← call Call_UpdateSchemes (UpdateSchemes schemeList);
       match err with
       | Some err => mret (inl (Errorf "updating schemes: " err))
       | None =>
           '(templateList, err) ← call Call_UpdateTemplates (UpdateTemplates templateList);
           match err with
           | Some err => mret (inl (Errorf "updating templates: " err))
           | None => mret (inr (schemeList, templateList))
           end
       end
     else mret (inr (schemeList, templateList)));
  match updated with
  | inl err => mret (Some err)
  | inr (schemeList, templateList) =>
  found ←
    (if decide (schemeFlag flags = "") then
       '(scheme, err) ← call (Call_FindScheme (Colorscheme appConf))
                             (FindScheme schemeList (Colorscheme appConf));
       mret (scheme,
             Errorf ("finding scheme " +:+ Colorscheme appConf +:+ " from configuration: ")
               <$> err)
     else
       '(scheme, err) ← call (Call_FindScheme (schemeFlag flags))
                             (FindScheme schemeList (schemeFlag flags));
       mret (scheme,
             Errorf ("finding scheme " +:+ schemeFlag flags +:+ " from flag: ") <$> err));
  match found with
  | (_, Some err) => mret (Some err)
  | (scheme, None) =>
  fmt_Println ["[CONFIG]: Selected scheme: "; scheme_Name scheme];;
  run_applications appConf templateList scheme (range_of (Applications appConf))
  end end end end.

(** [run]: the configuration is read, and the rest follows. *)
Definition run (flags : Flags)
    (range_of : gmap string AppConfig → list (string * AppConfig)) : M (option error) :=
  '(appConf, err) ← call (Call_NewConfig (configFileFlag flags))
                         (NewConfig (configFileFlag flags));
  match err with
  | Some err => mret (Some err)
  | None => run_configured flags range_of appConf
  end.

(** [main]: the error of [run], if any, goes to the standard error. *)
Definition main (flags : Flags)
    (range_of : gmap string AppConfig → list (string * AppConfig)) : M () :=
  err ← run flags range_of;
  match err with
  | Some err => fmt_Eprintf ("Error: " +:+ err +:+ newline)
  | None => mret ()
  end.

End Program.

(** The orders in which [range appConf.Applications] may visit the map. *)
Definition range_order (appConf : SetterConfig) (entries : list (string * AppConfig)) : Prop :=
  entries ≡ₚ map_to_list (Applications appConf).

(** ** A concrete environment *)

(** One [Env] on which the program can be run: a Unix-like machine with a
    lexical file system, a table of what each URL serves and a shell.  It
    stands for the packages and helper files named at the top, and follows
    the documentation of Go's packages and the component contracts of the
    specification. *)
Module Unix.

(** [filepath.Clean] on Unix, on path components: empty and [.] components
    vanish, [..] removes the component before it, and is dropped at the root
    or kept at the start of a relative path. *)
Fixpoint components (acc : string) (s : string) : list string :=
  match s with
  | EmptyString => [acc]
  | String c s' =>
      if bool_decide (c = "/"%char) then acc :: components "" s'
      else components (acc +:+ String c EmptyString) s'
  end.

Fixpoint clean_onto (rooted : bool) (stack : list string) (comps : list string) : list string :=
  match comps with
  | [] => reverse stack
  | c :: rest =>
      if bool_decide (c = "" ∨ c = ".") then clean_onto rooted stack rest
      else if bool_decide (c = "..") then
        match stack with
        | top :: below =>
            if bool_decide (top = "..") then clean_onto rooted (c :: stack) rest
            else clean_onto rooted below rest
        | [] => if rooted then clean_onto rooted [] rest else clean_onto rooted [c] rest
        end
      else clean_onto rooted (c :: stack) rest
  end.

Fixpoint join_with (sep : string) (l : list string) : string :=
  match l with
  | [] => ""
  | [x] => x
  | x :: rest => x +:+ sep +:+ join_with sep rest
  end.

Definition Clean (path : string) : string :=
  if decide (path = "") then "."
  else
    let rooted := first_byte_is path "/" in
    let out := join_with "/" (clean_onto rooted [] (components "" path)) in
    if rooted then "/" +:+ out
    else if decide (out = "") then "." else out.

(** [filepath.Join] of two elements: empty elements are ignored, the rest
    is joined with a separator and cleaned; no element gives the empty
    string. *)
Definition Join (a b : string) : string :=
  if decide (a = "") then (if decide (b = "") then "" else Clean b)
  else Clean (a +:+ "/" +:+ b).

Record world := {
  (** home directory of the current user, [None] when the lookup fails *)
  home : option string;
  (** directories and regular files, by path *)
  dirs : gset string;
  files : gmap string string;
  (** the configuration each configuration file holds *)
  configs : gmap string SetterConfig;
  (** the cached lists of scheme names and of templates, [None] when there
      is no cache; they are kept apart from the table of files *)
  cached_schemes : option (list string);
  cached_templates : option (gmap string Base16Template);
  (** the lists upstream, [None] when the network is down *)
  upstream : option (list string * gmap string Base16Template);
  (** the text each URL serves *)
  remote : gmap string string;
  (** shell commands that exit with a non-zero status *)
  failing : gset string;
  (** shell commands run so far *)
  executed : list string
}.

Definition set_dirs (d : gset string) (w : world) : world :=
  {| home := home w; dirs := d; files := files w; configs := configs w;
     cached_schemes := cached_schemes w; cached_templates := cached_templates w;
     upstream := upstream w; remote := remote w; failing := failing w;
     executed := executed w |}.

Definition set_files (f : gmap string string) (w : world) : world :=
  {| home := home w; dirs := dirs w; files := f; configs := configs w;
     cached_schemes := cached_schemes w; cached_templates := cached_templates w;
     upstream := upstream w; remote := remote w; failing := failing w;
     executed := executed w |}.

Definition set_cached (cs : option (list string))
    (ct : option (gmap string Base16Template)) (w : world) : world :=
  {| home := home w; dirs := dirs w; files := files w; configs := configs w;
     cached_schemes := cs; cached_templates := ct;
     upstream := upstream w; remote := remote w; failing := failing w;
     executed := executed w |}.

Definition set_executed (x : list string) (w : world) : world :=
  {| home := home w; dirs := dirs w; files := files w; configs := configs w;
     cached_schemes := cached_schemes w; cached_templates := cached_templates w;
     upstream := upstream w; remote := remote w; failing := failing w;
     executed := x |}.

Definition current (w : world) : (User * option error) * world :=
  match home w with
  | Some h => (({| HomeDir := h |}, None), w)
  | None => (({| HomeDir := "" |}, Some "user: Current not implemented"), w)
  end.

Definition zeroConfig : SetterConfig :=
  {| Colorscheme := ""; DryRun := false; SchemesListFile := ""; TemplatesListFile := "";
     SchemesCachePath := ""; TemplatesCachePath := ""; Applications := ∅ |}.

Definition ReadConfig (path : string) (w : world) : (SetterConfig * option error) * world :=
  match configs w !! path with
  | Some c => ((c, None), w)
  | None => ((zeroConfig, Some ("open " +:+ path +:+ ": no such file or directory")), w)
  end.

(** [os.Remove] of a regular file. *)
Definition Remove (path : string) (w : world) : option error * world :=
  match files w !! path with
  | Some _ => (None, set_files (delete path (files w)) w)
  | None => (Some ("remove " +:+ path +:+ ": no such file or directory"), w)
  end.

(** [os.RemoveAll]: the path and everything below it go; a path that
    does not exist is no error. *)
Definition below (path p : string) : bool :=
  bool_decide (p = path) || HasPrefix p (path +:+ "/").

Definition RemoveAll (path : string) (w : world) : option error * world :=
  (None,
   set_files (filter (λ kv, below path kv.1 = false) (files w))
     (set_dirs (filter (λ p, below path p = false) (dirs w)) w)).

Definition LoadSchemes (w : world) : (list string * option error) * world :=
  match cached_schemes w with
  | Some l => ((l, None), w)
  | None => (([], Some "colorscheme list not found"), w)
  end.

Definition LoadTemplates (w : world)
    : (gmap string Base16Template * option error) * world :=
  match cached_templates w with
  | Some l => ((l, None), w)
  | None => ((∅, Some "template list not found"), w)
  end.

Definition Update_schemes (l : list string) (w : world)
    : (list string * option error) * world :=
  match upstream w with
  | Some (ss, _) => ((ss, None), set_cached (Some ss) (cached_templates w) w)
  | None => ((l, Some "network is unreachable"), w)
  end.

Definition Update_templates (l : gmap string Base16Template) (w : world)
    : (gmap string Base16Template * option error) * world :=
  match upstream w with
  | Some (_, ts) => ((ts, None), set_cached (cached_schemes w) (Some ts) w)
  | None => ((l, Some "network is unreachable"), w)
  end.

Definition Find_scheme (l : list string) (name : string) (w : world)
    : (string * option error) * world :=
  if bool_decide (name ∈ l) then ((name, None), w)
  else (("", Some ("colorscheme not found: " +:+ name)), w).

(** [os.MkdirAll]: creates the directory along with any necessary parents;
    fails when the path is not yet a directory and it or one of its parents
    is a regular file. *)
Definition MkdirAll (path : string) (w : world) : option error * world :=
  if bool_decide ((path ∉ dirs w) ∧ Exists (λ p, p ∈ dom (files w)) (path :: ancestors path))
  then (Some ("mkdir " +:+ path +:+ ": not a directory"), w)
  else (None, set_dirs (dirs w ∪ list_to_set (path :: ancestors path)) w).

Definition Download (url : string) (w : world) : (string * option error) * world :=
  match remote w !! url with
  | Some body => ((body, None), w)
  | None => (("", Some ("GET " +:+ url +:+ ": 404 Not Found")), w)
  end.

Definition Write (path contents : string) (w : world) : option error * world :=
  if bool_decide (path ∈ dirs w)
  then (Some ("open " +:+ path +:+ ": is a directory"), w)
  else (None, set_files (<[path := contents]> (files w)) w).

Fixpoint lines_from (acc : string) (s : string) : list string :=
  match s with
  | EmptyString => [acc]
  | String c s' =>
      if bool_decide (c = "010"%char) then acc :: lines_from "" s'
      else lines_from (acc +:+ String c EmptyString) s'
  end.

Fixpoint from_marker (marker : string) (ls : list string) : option (list string) :=
  match ls with
  | [] => None
  | l :: rest => if decide (l = marker) then Some ls else from_marker marker rest
  end.

Fixpoint replace_section (ls : list string) (new startMarker endMarker : string)
    : option (list string) :=
  match ls with
  | [] => None
  | l :: rest =>
      if decide (l = startMarker)
      then tail ← from_marker endMarker rest; Some (l :: new :: tail)
      else (cons l) <$> replace_section rest new startMarker endMarker
  end.

(** Modelled from the spec: [ReplaceMultiline] is defined outside [main.go].
    The SectionReplacer contract: the file is read in full (an error when it
    is absent); the first line equal to the start marker and, after it, the
    first line equal to the end marker are located (an error when one is
    missing); the lines strictly between them are replaced by the new
    content. *)
Definition Replace (path new startMarker endMarker : string) (w : world)
    : option error * world :=
  match files w !! path with
  | None => (Some ("open " +:+ path +:+ ": no such file or directory"), w)
  | Some old =>
      match replace_section (lines_from "" old) new startMarker endMarker with
      | None => (Some "marker not found", w)
      | Some ls => (None, set_files (<[path := join_with newline ls]> (files w)) w)
      end
  end.

(** Modelled from the spec: [exe_cmd] is defined outside [main.go].  The
    HookRunner contract: an empty command is a no-op; a non-empty command
    is run by the shell, and a non-zero exit is an error. *)
Definition Exec (command : string) (w : world) : option error * world :=
  if decide (command = "") then (None, w)
  else
    let w' := set_executed (executed w ++ [command]) w in
    if bool_decide (command ∈ failing w) then (Some "exit status 1", w') else (None, w').

Definition FindTemplate (l : gmap string Base16Template) (name : string) (w : world)
    : (Base16Template * option error) * world :=
  match l !! name with
  | Some t => ((t, None), w)
  | None => (({| Name := ""; RawBaseURL := ""; Files := [] |},
              Some ("template not found: " +:+ name)), w)
  end.

(** A scheme is known by its name; the template engine is outside the
    model and leaves the text as it is. *)
Definition env : Env := {|
  World := world;
  Base16Colorscheme := string;
  Base16ColorschemeList := list string;
  Base16TemplateList := gmap string Base16Template;
  MustacheCtx := list (string * string);
  NewConfig := ReadConfig;
  Show := λ _ w, ((), w);
  os_Remove := Remove;
  os_RemoveAll := RemoveAll;
  LoadBase16ColorschemeList := LoadSchemes;
  LoadBase16TemplateList := LoadTemplates;
  UpdateSchemes := Update_schemes;
  UpdateTemplates := Update_templates;
  FindScheme := Find_scheme;
  scheme_Name := λ scheme, scheme;
  user_Current := current;
  os_MkdirAll := MkdirAll;
  filepath_Join := Join;
  DownloadFileToString := Download;
  MustacheContext := λ scheme ext, ([("scheme-name", scheme)], None);
  mustache_Render := λ data ctx, data;
  WriteFile := Write;
  ReplaceMultiline := Replace;
  exe_cmd := Exec;
  Find := FindTemplate
|}.

End Unix.

(** * Properties *)

(** ** Strings *)

Lemma first_byte_is_true (s : string) (c : ascii) :
  first_byte_is s c = true ↔ ∃ rest, s = String c rest.
Proof.
  unfold first_byte_is. rewrite bool_decide_eq_true.
  destruct s as [|a rest]; simpl; split.
  - discriminate.
  - intros [? ?]; discriminate.
  - intros [= ->]. by exists rest.
  - intros [? [= -> _]]. done.
Qed.

Lemma HasPrefix_byte (s : string) (c : ascii) :
  HasPrefix s (String c EmptyString) = first_byte_is s c.
Proof.
  unfold HasPrefix, first_byte_is. destruct s as [|a rest]; simpl.
  - done.
  - destruct (Ascii.ascii_dec c a) as [->|Hne]; case_bool_decide; try congruence.
    by destruct rest.
Qed.

Lemma HasPrefix_tilde_slash (s : string) :
  HasPrefix s "~/" = true ↔ ∃ rest, s = "~/" +:+ rest.
Proof.
  unfold HasPrefix. rewrite String.prefix_correct. split.
  - destruct s as [|a [|b rest]]; cbn; try discriminate.
    intros [= -> -> _]. by exists rest.
  - intros [rest ->]. cbn. by destruct rest.
Qed.

Lemma HasSuffix_nonempty (s suffix : string) :
  suffix ≠ "" → HasSuffix s suffix = true → s ≠ "".
Proof.
  intros Hsuf Hs ->. unfold HasSuffix in Hs.
  apply andb_true_iff in Hs as [_ Hs%bool_decide_eq_true]. simpl in Hs. congruence.
Qed.

(** ** [getSavePath] *)

Section GetSavePath.
Context {E : Env}.

(** The resolution rule of the PathResolver contract, bullet by bullet in
    the words of the specification: [~] is the home directory; a spec
    starting with [~/] is the home directory joined with the remainder; a
    spec not starting with [/] is taken relative to the current directory;
    any other spec is used verbatim. *)
Definition resolve_spec (homeDir pathSpec : string) : string :=
  if decide (pathSpec = "~") then homeDir
  else if HasPrefix pathSpec "~/" then filepath_Join homeDir (slice_from 2 pathSpec)
  else if negb (HasPrefix pathSpec "/") then filepath_Join "." pathSpec
  else pathSpec.

(** [home_known path s usr s1]: from [s], the home directory lookup that
    [path] calls for (none unless it starts with a tilde) succeeds with
    [usr] and leaves the state [s1]. *)
Definition home_known (path : string) (s : State) (usr : User) (s1 : State) : Prop :=
  if first_byte_is path "~"
  then ∃ w1, user_Current (world s) = ((usr, None), w1)
             ∧ s1 = {| world := w1; trace := trace s ++ [Call_user_Current] |}
  else s1 = s.

(** The outcome of [getSavePath] once the save path [dir] of a directory
    spec is known: the directory is made, and the default file name joined
    to it. *)
Definition in_directory (dir defaultFilename : string) (s1 : State)
    : (string * option error) * State :=
  let '(err, w2) := os_MkdirAll dir (world s1) in
  (match err with
   | Some err => ("", Some (Errorf "could not create folder: " err))
   | None => (filepath_Join dir defaultFilename, None)
   end,
   {| world := w2; trace := trace s1 ++ [Call_MkdirAll dir] |}).

(** What Go documents of [os.MkdirAll]: it creates the directory named by
    the path, along with any necessary parents, and returns nil; if the
    path is already a directory, it does nothing and returns nil. *)
Record MkdirAll_contract (is_dir : World → string → Prop) : Prop := {
  MkdirAll_creates : ∀ p w w', os_MkdirAll p w = (None, w') → is_dir w' p;
  MkdirAll_parents : ∀ p q w w',
    os_MkdirAll p w = (None, w') → q ∈ ancestors p → is_dir w' q;
  MkdirAll_existing : ∀ p w, is_dir w p → (os_MkdirAll p w).1 = None
}.

Lemma resolve_spec_code (homeDir path : string) :
  (if decide (path = "~") then homeDir
   else if HasPrefix path "~/" then filepath_Join homeDir (slice_from 2 path)
   else if negb (first_byte_is path "/") then filepath_Join "." path
   else path) = resolve_spec homeDir path.
Proof. unfold resolve_spec. by rewrite HasPrefix_byte. Qed.

(** The whole of [getSavePath] on a non-empty spec whose home lookup, if
    any, succeeds. *)
Lemma getSavePath_known (path d : string) (s : State) (usr : User) (s1 : State) :
  path ≠ "" →
  home_known path s usr s1 →
  getSavePath path d s =
    if HasSuffix path "/"
    then in_directory (resolve_spec (HomeDir usr) path) d s1
    else ((resolve_spec (HomeDir usr) path, None), s1).
Proof.
  intros Hne Hhome. unfold getSavePath, home_known in *.
  destruct (decide (path = "")) as [|_]; [done|].
  unfold mbind, M_bind, call, mret, M_ret, in_directory.
  destruct (first_byte_is path "~") eqn:Htilde.
  - destruct Hhome as (w1 & -> & ->). cbn [HomeDir].
    rewrite resolve_spec_code.
    destruct (HasSuffix path "/"); [|done]. cbn [world trace].
    by destruct (os_MkdirAll _ w1) as [[err|] w2].
  - subst s1.
    assert (resolve_spec "" path = resolve_spec (HomeDir usr) path) as <-.
    { unfold resolve_spec. destruct (decide (path = "~")) as [->|]; [done|].
      destruct (HasPrefix path "~/") eqn:Hp; [|done].
      apply HasPrefix_tilde_slash in Hp as [rest ->]. done. }
    cbn [HomeDir]. rewrite resolve_spec_code.
    destruct (HasSuffix path "/"); [|done].
    by destruct (os_MkdirAll _ (world s)) as [[err|] w2].
Qed.

(** A failed home lookup is the failure of [getSavePath]. *)
Lemma getSavePath_lookup_fails (path d : string) (s : State)
    (usr : User) (err : error) (w1 : World) :
  first_byte_is path "~" = true →
  user_Current (world s) = ((usr, Some err), w1) →
  getSavePath path d s =
    (("", Some (Errorf "could not get user home directory: " err)),
     {| world := w1; trace := trace s ++ [Call_user_Current] |}).
Proof.
  intros Htilde Hcur. unfold getSavePath.
  destruct (decide (path = "")) as [->|_]; [done|].
  unfold mbind, M_bind, call. by rewrite Htilde, Hcur.
Qed.

(** C8.  For every default file name [d], [getSavePath] of the empty spec
    returns the empty path and the nil error; it calls nothing and leaves
    the state as it was. *)
Theorem getSavePath_empty (d : string) (s : State) :
  getSavePath "" d s = (("", None), s).
Proof. reflexivity. Qed.

(** C10.  Whenever [getSavePath] returns a non-nil error, the path it
    returns with it is the empty string. *)
Theorem getSavePath_error_empty_path (path d : string) (s : State) :
  (getSavePath path d s).1.2 ≠ None → (getSavePath path d s).1.1 = "".
Proof.
  unfold getSavePath. destruct (decide (path = "")) as [|_]; [done|].
  unfold mbind, M_bind, call, mret, M_ret.
  destruct (first_byte_is path "~").
  - destruct (user_Current (world s)) as [[usr [err|]] w1]; [done|].
    destruct (HasSuffix path "/"); [|done].
    cbn [world trace]. by destruct (os_MkdirAll _ w1) as [[err|] w2].
  - destruct (HasSuffix path "/"); [|done].
    by destruct (os_MkdirAll _ (world s)) as [[err|] w2].
Qed.

(** C5.  For every non-empty path spec whose home lookup (made only for a
    spec that starts with a tilde) succeeds, [getSavePath] resolves the
    spec to a save path as follows: the exact spec [~] to the home
    directory; a spec starting with [~/] to the home directory joined with
    the remainder; a spec not starting with [/] and of neither tilde form
    to the spec joined to the current directory [.]; any other spec to
    itself.  That save path is the result for a spec that does not end in
    a separator, and the directory handed to [os.MkdirAll] and joined with
    the default file name for one that does. *)
Theorem getSavePath_resolves (path d : string) (s : State) (usr : User) (s1 : State) :
  path ≠ "" →
  home_known path s usr s1 →
  let savePath := resolve_spec (HomeDir usr) path in
  ((path = "~" → savePath = HomeDir usr)
   ∧ (∀ rest, path = "~/" +:+ rest → savePath = filepath_Join (HomeDir usr) rest)
   ∧ (HasPrefix path "/" = false → path ≠ "~" → HasPrefix path "~/" = false →
      savePath = filepath_Join "." path)
   ∧ (HasPrefix path "/" = true → savePath = path))
  ∧ getSavePath path d s =
      if HasSuffix path "/" then in_directory savePath d s1 else ((savePath, None), s1).
Proof.
  intros Hne Hhome savePath. split; [|by apply getSavePath_known].
  subst savePath. unfold resolve_spec. repeat split.
  - intros ->. done.
  - intros rest ->. simpl. by destruct rest.
  - intros Hslash Hnt Hnts. destruct (decide (path = "~")); [done|].
    by rewrite Hnts, Hslash.
  - intros Hslash. destruct (decide (path = "~")) as [->|]; [done|].
    destruct (HasPrefix path "~/") eqn:Hp.
    + apply HasPrefix_tilde_slash in Hp as [rest ->]. done.
    + by rewrite Hslash.
Qed.

(** C9.  For every path spec that starts with a tilde but is neither [~]
    nor prefixed by [~/], [getSavePath] still calls [user.Current]: when
    the lookup fails the call fails with it, and when it succeeds the spec
    is joined to the current directory [.], whatever the home directory
    is. *)
Theorem getSavePath_tilde_other (path d : string) (s : State) :
  first_byte_is path "~" = true →
  path ≠ "~" →
  HasPrefix path "~/" = false →
  (∀ usr err w1, user_Current (world s) = ((usr, Some err), w1) →
     getSavePath path d s =
       (("", Some (Errorf "could not get user home directory: " err)),
        {| world := w1; trace := trace s ++ [Call_user_Current] |}))
  ∧ (∀ usr w1, user_Current (world s) = ((usr, None), w1) →
     let s1 := {| world := w1; trace := trace s ++ [Call_user_Current] |} in
     getSavePath path d s =
       if HasSuffix path "/" then in_directory (filepath_Join "." path) d s1
       else ((filepath_Join "." path, None), s1)).
Proof.
  intros Htilde Hnt Hnts. split.
  - intros usr err w1 Hcur. by apply getSavePath_lookup_fails with usr.
  - intros usr w1 Hcur s1.
    assert (path ≠ "") as Hne by (intros ->; done).
    rewrite (getSavePath_known path d s usr s1 Hne).
    + assert (resolve_spec (HomeDir usr) path = filepath_Join "." path) as ->; [|done].
      unfold resolve_spec. destruct (decide (path = "~")); [done|].
      rewrite Hnts, HasPrefix_byte.
      apply first_byte_is_true in Htilde as [rest ->]. done.
    + unfold home_known. rewrite Htilde. by exists w1.
Qed.

(** C6, amended.  For every path spec ending in a separator whose home
    lookup (if any) succeeds, [getSavePath] hands the resolved directory
    to [os.MkdirAll]: when that succeeds the directory and its parents
    exist and the result is the directory joined with the default file
    name, and it succeeds when the directory already exists.  For every
    non-empty path spec that does not end in a separator and starts with
    neither a tilde nor [/], the result is the spec joined to the current
    directory [.], whatever the default file name is, and the state is
    left as it was. *)
Theorem getSavePath_directory_or_relative (is_dir : World → string → Prop)
    (path d : string) (s : State) :
  MkdirAll_contract is_dir →
  (∀ usr s1, HasSuffix path "/" = true → home_known path s usr s1 →
     let dir := resolve_spec (HomeDir usr) path in
     (∀ w2, os_MkdirAll dir (world s1) = (None, w2) →
        getSavePath path d s =
          ((filepath_Join dir d, None),
           {| world := w2; trace := trace s1 ++ [Call_MkdirAll dir] |})
        ∧ is_dir w2 dir ∧ ∀ q, q ∈ ancestors dir → is_dir w2 q)
     ∧ (is_dir (world s1) dir →
        (getSavePath path d s).1 = (filepath_Join dir d, None)))
  ∧ (path ≠ "" → HasSuffix path "/" = false →
     first_byte_is path "~" = false → first_byte_is path "/" = false →
     ∀ d', getSavePath path d' s = ((filepath_Join "." path, None), s)).
Proof.
  intros Hmk. split.
  - intros usr s1 Hsuf Hhome dir.
    assert (path ≠ "") as Hne by (by apply (HasSuffix_nonempty path "/")).
    rewrite (getSavePath_known path d s usr s1 Hne Hhome), Hsuf.
    fold dir. unfold in_directory. split.
    + intros w2 Hw2. rewrite Hw2. split; [done|]. split.
      * by eapply MkdirAll_creates.
      * intros q Hq. by eapply MkdirAll_parents.
    + intros Hdir. apply (MkdirAll_existing _ Hmk) in Hdir.
      destruct (os_MkdirAll dir (world s1)) as [err w2]. simpl in Hdir. by subst err.
  - intros Hne Hsuf Htilde Hslash d'.
    rewrite (getSavePath_known path d' s {| HomeDir := "" |} s Hne), Hsuf.
    + unfold resolve_spec. destruct (decide (path = "~")) as [->|]; [done|].
      destruct (HasPrefix path "~/") eqn:Hp.
      * apply HasPrefix_tilde_slash in Hp as [rest ->]. done.
      * by rewrite HasPrefix_byte, Hslash.
    + unfold home_known. by rewrite Htilde.
Qed.

End GetSavePath.

(** ** What a computation adds to the trace *)

(** The calls that write to a destination file. *)
Definition is_write (e : event) : bool :=
  match e with
  | Call_WriteFile _ _ | Call_ReplaceMultiline _ _ _ _ => true
  | _ => false
  end.

(** The calls that run the hook. *)
Definition is_hook (e : event) : bool :=
  match e with
  | Call_exe_cmd _ => true
  | _ => false
  end.

Section Adds.
Context {E : Env}.

(** [adds P m]: from any state, [m] keeps the calls made so far and every
    call it makes satisfies [P]. *)
Definition adds (P : event → Prop) {A} (m : M A) : Prop :=
  ∀ s, ∃ evs, trace (m s).2 = trace s ++ evs ∧ Forall P evs.

Lemma adds_ret (P : event → Prop) {A} (a : A) : adds P (mret a).
Proof. intros s. exists []. by rewrite app_nil_r. Qed.

Lemma adds_bind (P : event → Prop) {A B} (m : M A) (k : A → M B) :
  adds P m → (∀ a, adds P (k a)) → adds P (m ≫= k).
Proof.
  intros Hm Hk s. unfold mbind, M_bind.
  destruct (Hm s) as (evs1 & Ht1 & HP1).
  destruct (m s) as [a s1]. simpl in Ht1.
  destruct (Hk a s1) as (evs2 & Ht2 & HP2).
  exists (evs1 ++ evs2). rewrite Ht2, Ht1, app_assoc. split; [done|].
  by apply Forall_app.
Qed.

Lemma adds_call (P : event → Prop) {A} (e : event) (op : World → A * World) :
  P e → adds P (call e op).
Proof.
  intros He s. unfold call. destruct (op (world s)) as [a w].
  exists [e]. split; [done|]. by constructor.
Qed.

Lemma adds_Println (P : event → Prop) (args : list string) :
  P (Println args) → adds P (fmt_Println args).
Proof. intros He s. exists [Println args]. split; [done|]. by constructor. Qed.

Lemma adds_for_range (P : event → Prop) {K V} (entries : list (K * V))
    (body : K → V → M (option error)) :
  (∀ k v, adds P (body k v)) → adds P (for_range entries body).
Proof.
  intros Hbody. induction entries as [|[k v] rest IH]; simpl.
  - apply adds_ret.
  - apply adds_bind; [done|]. intros [err|]; [apply adds_ret | done].
Qed.

Lemma adds_getSavePath (P : event → Prop) (path d : string) :
  P Call_user_Current → (∀ p, P (Call_MkdirAll p)) → adds P (getSavePath path d).
Proof.
  intros Hcur Hmk. unfold getSavePath.
  destruct (decide _); [apply adds_ret|].
  apply adds_bind.
  - destruct (first_byte_is _ _); [by apply adds_call | apply adds_ret].
  - intros [usr [err|]]; [apply adds_ret|].
    destruct (HasSuffix _ _); [|apply adds_ret].
    apply adds_bind; [by apply adds_call|].
    intros [err|]; apply adds_ret.
Qed.

End Adds.

(** ** [Base16Render] *)

Section Render.
Context {E : Env}.

(** The address the body of a template file is fetched from. *)
Definition template_url (templ : Base16Template) (k : string) : string :=
  RawBaseURL templ +:+ "templates/" +:+ k +:+ ".mustache".

(** The state in which [Base16Render] enters its loop. *)
Definition entering (templ : Base16Template) (s : State) : State :=
  {| world := world s;
     trace := trace s ++
       [Println ["[RENDER]: Rendering template " +:+ dquote +:+ Name templ +:+ dquote]] |}.

(** Modelled from the spec: [exe_cmd] is defined outside [main.go].  Of the
    HookRunner contract, the sentence that an empty command is a no-op. *)
Definition exe_cmd_empty_noop : Prop := ∀ w, exe_cmd "" w = (None, w).

Lemma for_range_app {K V} (l1 l2 : list (K * V)) (body : K → V → M (option error))
    (s : State) :
  for_range (l1 ++ l2) body s =
    match for_range l1 body s with
    | (Some err, s1) => (Some err, s1)
    | (None, s1) => for_range l2 body s1
    end.
Proof.
  revert s. induction l1 as [|[k v] l1 IH]; intros s; simpl; [done|].
  unfold mbind, M_bind. destruct (body k v s) as [[err|] s1]; [done|]. apply IH.
Qed.

(** The loop stops at the first entry whose body returns an error. *)
Lemma for_range_first_error {K V} (before after : list (K * V)) (k : K) (v : V)
    (body : K → V → M (option error)) (s s1 s2 : State) (err : error) :
  for_range before body s = (None, s1) →
  body k v s1 = (Some err, s2) →
  for_range (before ++ (k, v) :: after) body s = (Some err, s2).
Proof.
  intros Hbefore Hbody. rewrite for_range_app, Hbefore. simpl.
  unfold mbind, M_bind. by rewrite Hbody.
Qed.

Lemma Base16Render_unfold (appConf : SetterConfig) (templ : Base16Template)
    (scheme : Base16Colorscheme) (app : string) (s : State) :
  Base16Render appConf templ scheme app s =
    match for_range (Files templ) (render_file appConf templ scheme app) (entering templ s) with
    | (Some err, s1) => (Some err, s1)
    | (None, s1) =>
        if DryRun appConf then
          (None, {| world := world s1;
                    trace := trace s1 ++ [Println ["Not running hook, DryRun enabled: ";
                                                   Hook (application appConf app)]] |})
        else
          (None, {| world := (exe_cmd (Hook (application appConf app)) (world s1)).2;
                    trace := trace s1 ++ [Call_exe_cmd (Hook (application appConf app))] |})
    end.
Proof.
  unfold Base16Render, mbind, M_bind, fmt_Println. fold (entering templ s).
  destruct (for_range _ _ _) as [[err|] s1]; [done|].
  destruct (DryRun appConf); [done|].
  unfold call. by destruct (exe_cmd _ _).
Qed.

(** In a dry run the body of the loop makes no call that writes a file or
    runs the hook. *)
Lemma render_file_dry_run (appConf : SetterConfig) (templ : Base16Template)
    (scheme : Base16Colorscheme) (app k : string) (v : TemplateFile) :
  DryRun appConf = true →
  adds (λ e, is_write e = false ∧ is_hook e = false)
       (render_file appConf templ scheme app k v).
Proof.
  intros Hdry. unfold render_file. rewrite Hdry.
  apply adds_bind; [by apply adds_call|]. intros [data [err|]]; [apply adds_ret|].
  destruct (MustacheContext _ _) as [ctx [err|]]; [apply adds_ret|].
  apply adds_bind; [by apply adds_getSavePath|]. intros [savePath [err|]]; [apply adds_ret|].
  destruct (decide _); [apply adds_ret|].
  apply adds_bind; [by apply adds_Println|]. intros _. apply adds_ret.
Qed.

(** In a dry run [Base16Render] neither writes a file nor runs the hook:
    the calls it makes are prints, downloads, and the home lookups and
    [os.MkdirAll] calls of [getSavePath]. *)
Lemma Base16Render_dry_run (appConf : SetterConfig) (templ : Base16Template)
    (scheme : Base16Colorscheme) (app : string) :
  DryRun appConf = true →
  adds (λ e, is_write e = false ∧ is_hook e = false)
       (Base16Render appConf templ scheme app).
Proof.
  intros Hdry. unfold Base16Render. rewrite Hdry.
  apply adds_bind; [by apply adds_Println|]. intros _.
  apply adds_bind.
  - apply adds_for_range. intros k v. by apply render_file_dry_run.
  - intros [err|]; [apply adds_ret|].
    apply adds_bind; [by apply adds_Println|]. intros _. apply adds_ret.
Qed.

(** C4.  For a file-key whose mode is neither rewrite nor replace (the
    unset mode included), the body of the loop makes no call that writes
    a file; and when the download, the context and the destination
    resolution succeed it returns no error and leaves the world as the
    resolution left it. *)
Theorem render_file_unrecognized_mode (appConf : SetterConfig) (templ : Base16Template)
    (scheme : Base16Colorscheme) (app k : string) (v : TemplateFile) (s : State) :
  Mode (fileConfig appConf app k) ≠ "rewrite" →
  Mode (fileConfig appConf app k) ≠ "replace" →
  adds (λ e, is_write e = false) (render_file appConf templ scheme app k v)
  ∧ (∀ data w1 ctx savePath s2,
       DownloadFileToString (template_url templ k) (world s) = ((data, None), w1) →
       MustacheContext scheme (Extension v) = (ctx, None) →
       getSavePath (Path (fileConfig appConf app k)) (k +:+ Extension v)
         {| world := w1; trace := trace s ++ [Call_Download (template_url templ k)] |}
         = ((savePath, None), s2) →
       (render_file appConf templ scheme app k v s).1 = None
       ∧ world (render_file appConf templ scheme app k v s).2 = world s2).
Proof.
  intros Hrw Hrp. split.
  - unfold render_file.
    apply adds_bind; [by apply adds_call|]. intros [data [err|]]; [apply adds_ret|].
    destruct (MustacheContext _ _) as [ctx [err|]]; [apply adds_ret|].
    apply adds_bind; [by apply adds_getSavePath|].
    intros [savePath [err|]]; [apply adds_ret|].
    destruct (decide _); [apply adds_ret|].
    destruct (DryRun appConf).
    + apply adds_bind; [by apply adds_Println|]. intros _. apply adds_ret.
    + destruct (decide _); [done|]. destruct (decide _); [done|]. apply adds_ret.
  - intros data w1 ctx savePath s2 Hdl Hctx Hsave.
    unfold render_file, mbind, M_bind, call. fold (template_url templ k).
    rewrite Hdl, Hctx, Hsave.
    destruct (decide (savePath = "")); [done|].
    destruct (DryRun appConf); [done|].
    destruct (decide _); [done|]. by destruct (decide _).
Qed.

(** C7.  When the download and the context of a file-key succeed and
    [getSavePath], called with the configured path of the file-key and the
    default file name file-key + extension, yields the empty path and no
    error, the loop goes on with the remaining file-keys from the state
    the resolution left; so it does, from the state after the download,
    for a file-key whose configured path is empty or absent. *)
Theorem for_range_skips_empty_path (appConf : SetterConfig) (templ : Base16Template)
    (scheme : Base16Colorscheme) (app k : string) (v : TemplateFile)
    (rest : list (string * TemplateFile)) (s : State)
    (data : string) (w1 : World) (ctx : MustacheCtx) :
  DownloadFileToString (template_url templ k) (world s) = ((data, None), w1) →
  MustacheContext scheme (Extension v) = (ctx, None) →
  let s1 := {| world := w1; trace := trace s ++ [Call_Download (template_url templ k)] |} in
  (∀ s2, getSavePath (Path (fileConfig appConf app k)) (k +:+ Extension v) s1
           = (("", None), s2) →
     for_range ((k, v) :: rest) (render_file appConf templ scheme app) s
       = for_range rest (render_file appConf templ scheme app) s2)
  ∧ (Path (fileConfig appConf app k) = "" →
     for_range ((k, v) :: rest) (render_file appConf templ scheme app) s
       = for_range rest (render_file appConf templ scheme app) s1).
Proof.
  intros Hdl Hctx s1.
  assert (∀ s2, getSavePath (Path (fileConfig appConf app k)) (k +:+ Extension v) s1
                  = (("", None), s2) →
     for_range ((k, v) :: rest) (render_file appConf templ scheme app) s
       = for_range rest (render_file appConf templ scheme app) s2) as Hskip.
  { intros s2 Hsave. simpl. unfold mbind at 1, M_bind at 1.
    unfold render_file at 1, mbind, M_bind, call. fold (template_url templ k).
    rewrite Hdl, Hctx. fold s1. by rewrite Hsave. }
  split; [done|]. intros Hpath. apply Hskip. by rewrite Hpath.
Qed.

(** C3, amended.  With dry-run disabled, once the file-keys of an
    application have all been rendered without error, [Base16Render]
    hands the hook command to [exe_cmd] once and returns no error,
    whatever the outcome of the hook; and when [exe_cmd] does nothing on
    an empty command, an empty hook leaves the world as the file-keys left
    it. *)
Theorem Base16Render_hook_outcome_dropped (appConf : SetterConfig) (templ : Base16Template)
    (scheme : Base16Colorscheme) (app : string) (s s1 : State) :
  DryRun appConf = false →
  for_range (Files templ) (render_file appConf templ scheme app) (entering templ s)
    = (None, s1) →
  let hook := Hook (application appConf app) in
  (∀ outcome w2, exe_cmd hook (world s1) = (outcome, w2) →
     Base16Render appConf templ scheme app s =
       (None, {| world := w2; trace := trace s1 ++ [Call_exe_cmd hook] |}))
  ∧ (exe_cmd_empty_noop → hook = "" →
     Base16Render appConf templ scheme app s =
       (None, {| world := world s1; trace := trace s1 ++ [Call_exe_cmd ""] |})).
Proof.
  intros Hdry Hfiles hook. rewrite Base16Render_unfold, Hfiles, Hdry. fold hook. split.
  - intros outcome w2 Hexe. by rewrite Hexe.
  - intros Hnoop ->. by rewrite Hnoop.
Qed.

End Render.

(** ** The application loop *)

Section Run.
Context {E : Env}.

(** The template an application is rendered with: its own name when the
    configuration names none. *)
Definition template_of (app : string) (appConfig : AppConfig) : string :=
  if decide (Template appConfig = "") then app else Template appConfig.

Lemma range_Applications_app (appConf : SetterConfig) (templateList : Base16TemplateList)
    (scheme : Base16Colorscheme)
    (l1 l2 : list (string * AppConfig)) (flag : bool) (s : State) :
  range_Applications appConf templateList scheme (l1 ++ l2) flag s =
    match range_Applications appConf templateList scheme l1 flag s with
    | ((Some err, flag1), s1) => ((Some err, flag1), s1)
    | ((None, flag1), s1) => range_Applications appConf templateList scheme l2 flag1 s1
    end.
Proof.
  revert flag s. induction l1 as [|[app appConfig] l1 IH]; intros flag s; simpl; [done|].
  destruct (Enabled appConfig); [|apply IH].
  unfold mbind, M_bind.
  destruct (call _ _ s) as [[tmpl [err|]] s1]; [done|].
  destruct (Base16Render _ _ _ _ s1) as [[err|] s2]; [done|]. apply IH.
Qed.

(** C2, amended.  An error while rendering one file-key of an application
    aborts the remaining file-keys of that application: [Base16Render]
    returns it from the state the failing file-key left, without running
    the hook.  [run] then returns that error at once, from that same
    state: the applications the loop has not yet visited are not
    rendered, whatever they are. *)
Theorem run_applications_first_error (appConf : SetterConfig)
    (templateList : Base16TemplateList) (scheme : Base16Colorscheme) :
  (∀ templ app before k v after s s1 s2 err,
     Files templ = before ++ (k, v) :: after →
     for_range before (render_file appConf templ scheme app) (entering templ s) = (None, s1) →
     render_file appConf templ scheme app k v s1 = (Some err, s2) →
     Base16Render appConf templ scheme app s = (Some err, s2))
  ∧ (∀ visited app appConfig unvisited s flag s1 tmpl w2 err s3,
     range_Applications appConf templateList scheme visited false s = ((None, flag), s1) →
     Enabled appConfig = true →
     Find templateList (template_of app appConfig) (world s1) = ((tmpl, None), w2) →
     Base16Render appConf tmpl scheme app
       {| world := w2; trace := trace s1 ++ [Call_Find (template_of app appConfig)] |}
       = (Some err, s3) →
     run_applications appConf templateList scheme
       (visited ++ (app, appConfig) :: unvisited) s
       = (Some (Errorf "rendering file: " err), s3)).
Proof.
  split.
  - intros templ app before k v after s s1 s2 err Hfiles Hbefore Hbody.
    rewrite Base16Render_unfold, Hfiles.
    by rewrite (for_range_first_error before after k v _ _ s1 s2 err).
  - intros visited app appConfig unvisited s flag s1 tmpl w2 err s3
      Hvisited Henabled Hfind Hrender.
    unfold run_applications, mbind, M_bind.
    rewrite range_Applications_app, Hvisited. simpl.
    fold (template_of app appConfig). rewrite Henabled.
    unfold mbind, M_bind, call. by rewrite Hfind, Hrender.
Qed.

End Run.

(** ** Runs on the concrete environment *)

Module Runs.

Definition run_state : Type := @State Unix.env.

(** The [vim] template: one file-key, [colors], with extension [.vim]. *)
Definition vim : Base16Template :=
  {| Name := "vim";
     RawBaseURL := "https://example.org/vim/";
     Files := [("colors", {| Extension := ".vim" |})] |}.

(** The [kitty] template, whose only file the remote does not serve. *)
Definition kitty : Base16Template :=
  {| Name := "kitty";
     RawBaseURL := "https://example.org/kitty/";
     Files := [("theme", {| Extension := ".conf" |})] |}.

Definition templates : gmap string Base16Template := {[ "vim" := vim; "kitty" := kitty ]}.

Definition target (path mode : string) : FileConfig :=
  {| Path := path; Mode := mode; StartMarker := ""; EndMarker := "" |}.

Definition config (dryRun : bool) (apps : gmap string AppConfig) : SetterConfig :=
  {| Colorscheme := "nord"; DryRun := dryRun;
     SchemesListFile := "/cache/schemeslist.yaml";
     TemplatesListFile := "/cache/templateslist.yaml";
     SchemesCachePath := "/cache/schemes/";
     TemplatesCachePath := "/cache/templates/";
     Applications := apps |}.

(** One enabled application [vim], whose file-key [colors] has the given
    target and which has the given hook. *)
Definition vim_config (dryRun : bool) (colors : FileConfig) (hook : string) : SetterConfig :=
  config dryRun
    {[ "vim" := {| Enabled := true; Template := ""; Hook := hook;
                   AppFiles := {[ "colors" := colors ]} |} ]}.

(** Two enabled applications: [kitty], whose template file cannot be
    downloaded, and [vim], which renders. *)
Definition kitty_app : AppConfig :=
  {| Enabled := true; Template := ""; Hook := "";
     AppFiles := {[ "theme" := target "kitty/theme.conf" "rewrite" ]} |}.

Definition vim_app : AppConfig :=
  {| Enabled := true; Template := ""; Hook := "";
     AppFiles := {[ "colors" := target "vim/colors.vim" "rewrite" ]} |}.

Definition two_apps : SetterConfig :=
  config false {[ "kitty" := kitty_app; "vim" := vim_app ]}.

(** A machine whose user has a home directory, whose remote serves the
    file of [vim] only, whose shell fails on the command [false], and
    which holds a dry-run configuration and the two cached lists. *)
Definition machine : Unix.world :=
  {| Unix.home := Some "/home/u";
     Unix.dirs := {[ "/"; "/home"; "/home/u" ]};
     Unix.files := {[ "/cache/schemeslist.yaml" := "nord: https://example.org/nord" ]};
     Unix.configs :=
       {[ "/home/u/config.yaml" := vim_config true (target "out/" "rewrite") "touch done" ]};
     Unix.cached_schemes := Some ["nord"; "solarized"];
     Unix.cached_templates := Some templates;
     Unix.upstream := None;
     Unix.remote := {[ "https://example.org/vim/templates/colors.mustache" := "hi Normal" ]};
     Unix.failing := {[ "false" ]};
     Unix.executed := [] |}.

(** The same machine, on which the lookup of the current user fails. *)
Definition homeless : Unix.world :=
  {| Unix.home := None;
     Unix.dirs := Unix.dirs machine;
     Unix.files := Unix.files machine;
     Unix.configs := Unix.configs machine;
     Unix.cached_schemes := Unix.cached_schemes machine;
     Unix.cached_templates := Unix.cached_templates machine;
     Unix.upstream := Unix.upstream machine;
     Unix.remote := Unix.remote machine;
     Unix.failing := Unix.failing machine;
     Unix.executed := [] |}.

Definition start (w : Unix.world) : run_state := {| world := w : @World Unix.env; trace := [] |}.

(** The file of the [vim] template. *)
Definition colors : TemplateFile := {| Extension := ".vim" |}.

(** An enabled application [vim] with no file target at all. *)
Definition bare_config : SetterConfig :=
  config false {[ "vim" := {| Enabled := true; Template := ""; Hook := "";
                              AppFiles := ∅ |} ]}.

(** The state after the download of the file of [vim] from [start machine]. *)
Definition downloaded : run_state :=
  {| world := machine : @World Unix.env;
     trace := [Call_Download "https://example.org/vim/templates/colors.mustache"] |}.

(** The user of [machine], and the state after a lookup from [start machine]. *)
Definition user : User := {| HomeDir := "/home/u" |}.

Definition looked_up : run_state :=
  {| world := machine : @World Unix.env; trace := [Call_user_Current] |}.

End Runs.

Lemma Unix_MkdirAll_contract :
  MkdirAll_contract (E := Unix.env) (λ w p, p ∈ Unix.dirs w).
Proof.
  split; cbv beta; unfold os_MkdirAll, Unix.env, Unix.MkdirAll.
  - intros p w w'. case_bool_decide; [done|]. intros [= <-].
    unfold Unix.set_dirs. cbn [Unix.dirs]. set_solver.
  - intros p q w w'. case_bool_decide; [done|]. intros [= <-] Hq.
    unfold Unix.set_dirs. cbn [Unix.dirs]. set_solver.
  - intros p w Hp. case_bool_decide as H; [|done]. by destruct H.
Qed.

(** [filepath.Join] and the parents of a path, on a few paths. *)
Example Join_examples :
  Unix.Join "." "a/b" = "a/b" ∧ Unix.Join "." "" = "."
  ∧ Unix.Join "/home/u" ".config/x/" = "/home/u/.config/x"
  ∧ Unix.Join "." "../a/./b//c/.." = "../a/b" ∧ Unix.Join "/" "../x" = "/x"
  ∧ Unix.Join "" "" = "" ∧ Unix.Join "out" "colors.vim" = "out/colors.vim"
  ∧ ancestors "/a/b/c" = ["/"; "/a"; "/a/b"] ∧ ancestors "a/b" = ["a"].
Proof. by vm_compute. Qed.

(** ** The properties of [getSavePath] on concrete runs *)

Section GetSavePathRuns.
Import Runs.

(** C10 on a machine without a current user. *)
Lemma getSavePath_error_empty_path_witness :
  (getSavePath (E := Unix.env) "~" "colors.vim" (start homeless)).1.2 ≠ None
  ∧ (getSavePath (E := Unix.env) "~" "colors.vim" (start homeless)).1.1 = "".
Proof.
  split; [by vm_compute|].
  apply (getSavePath_error_empty_path (E := Unix.env)). by vm_compute.
Defined.

(** C5 on the spec [~/.vimrc.colors]. *)
Lemma getSavePath_resolves_witness :
  "~/.vimrc.colors" ≠ ""
  ∧ home_known (E := Unix.env) "~/.vimrc.colors" (start machine) user looked_up
  ∧ getSavePath (E := Unix.env) "~/.vimrc.colors" "colors.vim" (start machine)
    = (("/home/u/.vimrc.colors", None), looked_up).
Proof.
  assert ("~/.vimrc.colors" ≠ "") as Hne by done.
  assert (home_known (E := Unix.env) "~/.vimrc.colors" (start machine) user looked_up)
    as Hhome by (by exists machine).
  split; [done|]. split; [done|].
  destruct (getSavePath_resolves (E := Unix.env) "~/.vimrc.colors" "colors.vim"
              (start machine) user looked_up Hne Hhome) as [_ ->].
  reflexivity.
Defined.

(** C9 on the spec [~user/x]. *)
Lemma getSavePath_tilde_other_witness :
  first_byte_is "~user/x" "~" = true
  ∧ "~user/x" ≠ "~"
  ∧ HasPrefix "~user/x" "~/" = false
  ∧ getSavePath (E := Unix.env) "~user/x" "colors.vim" (start machine)
    = (("~user/x", None), looked_up).
Proof.
  assert (first_byte_is "~user/x" "~" = true) as H1 by done.
  assert ("~user/x" ≠ "~") as H2 by done.
  assert (HasPrefix "~user/x" "~/" = false) as H3 by done.
  repeat (split; [done|]).
  destruct (getSavePath_tilde_other (E := Unix.env) "~user/x" "colors.vim"
              (start machine) H1 H2 H3) as [_ Hok].
  rewrite (Hok user machine eq_refl). reflexivity.
Defined.

(** C6, as stated, fails on the empty spec: it neither ends in a
    separator nor starts with a tilde or a slash, and [getSavePath]
    returns the empty path for it, where the join of the current
    directory and the spec is [.]. *)
Lemma getSavePath_empty_spec_is_not_joined :
  HasSuffix "" "/" = false
  ∧ first_byte_is "" "~" = false
  ∧ first_byte_is "" "/" = false
  ∧ (getSavePath (E := Unix.env) "" "colors.vim" (start machine)).1 = ("", None)
  ∧ filepath_Join (Env := Unix.env) "." "" = "."
  ∧ (getSavePath (E := Unix.env) "" "colors.vim" (start machine)).1.1
    ≠ filepath_Join (Env := Unix.env) "." "".
Proof. by vm_compute. Qed.

(** C6, amended, on the directory spec [out/] and the relative spec
    [vim/colors.vim]. *)
Lemma getSavePath_directory_or_relative_witness :
  MkdirAll_contract (E := Unix.env) (λ w p, p ∈ Unix.dirs w)
  ∧ (getSavePath (E := Unix.env) "out/" "colors.vim" (start machine)).1
    = ("out/colors.vim", None)
  ∧ "out" ∈ Unix.dirs (world (getSavePath (E := Unix.env) "out/" "colors.vim" (start machine)).2)
  ∧ getSavePath (E := Unix.env) "vim/colors.vim" "ignored" (start machine)
    = (("vim/colors.vim", None), start machine).
Proof.
  split; [exact Unix_MkdirAll_contract|].
  destruct (getSavePath_directory_or_relative (E := Unix.env) (λ w p, p ∈ Unix.dirs w)
              "out/" "colors.vim" (start machine) Unix_MkdirAll_contract) as [Hdir _].
  destruct (Hdir {| HomeDir := "" |} (start machine) eq_refl eq_refl) as [Hmade _].
  destruct (Hmade (Unix.MkdirAll "out" machine).2 eq_refl) as (Heq & Hin & _).
  split; [rewrite Heq; reflexivity|]. split; [rewrite Heq; exact Hin|].
  destruct (getSavePath_directory_or_relative (E := Unix.env) (λ w p, p ∈ Unix.dirs w)
              "vim/colors.vim" "colors.vim" (start machine) Unix_MkdirAll_contract)
    as [_ Hrel].
  rewrite (Hrel ltac:(discriminate) eq_refl eq_refl eq_refl "ignored"). reflexivity.
Defined.

End GetSavePathRuns.

(** ** The properties of [Base16Render] and of the loop on concrete runs *)

Lemma pair_eta {A B} (r : A * B) (a : A) : r.1 = a → r = (a, r.2).
Proof. destruct r as [a' b]. by intros [= ->]. Qed.

Section RenderRuns.
Import Runs.

(** C1 fails on the code.  In a dry run over a file-key whose path is the
    directory spec [out/], [Base16Render] returns no error, writes no file
    and runs no hook, yet [getSavePath] has called [os.MkdirAll]: the
    directory [out], absent before, exists afterwards. *)
Theorem Base16Render_dry_run_creates_directory :
  let appConf := vim_config true (target "out/" "rewrite") "touch done" in
  let r := Base16Render (E := Unix.env) appConf vim "nord" "vim" (start machine) in
  DryRun appConf = true
  ∧ r.1 = None
  ∧ trace r.2 =
      [Println ["[RENDER]: Rendering template " +:+ dquote +:+ "vim" +:+ dquote];
       Call_Download "https://example.org/vim/templates/colors.mustache";
       Call_MkdirAll "out";
       Println ["    - (dryrun) file would be written to: "; "out/colors.vim"];
       Println ["Not running hook, DryRun enabled: "; "touch done"]]
  ∧ bool_decide ("out" ∈ Unix.dirs machine) = false
  ∧ bool_decide ("out" ∈ Unix.dirs (world r.2)) = true.
Proof. by vm_compute. Qed.

(** C4 on a file-key whose mode is unset. *)
Lemma render_file_unrecognized_mode_witness :
  let appConf := vim_config false (target "~/.vimrc.colors" "") "" in
  let r := render_file (E := Unix.env) appConf vim "nord" "vim" "colors" colors
             (start machine) in
  Mode (fileConfig appConf "vim" "colors") ≠ "rewrite"
  ∧ Mode (fileConfig appConf "vim" "colors") ≠ "replace"
  ∧ r.1 = None
  ∧ Unix.files (world r.2) = Unix.files machine.
Proof.
  intros appConf r.
  assert (Mode (fileConfig appConf "vim" "colors") ≠ "rewrite") as Hrw by done.
  assert (Mode (fileConfig appConf "vim" "colors") ≠ "replace") as Hrp by done.
  split; [done|]. split; [done|].
  destruct (render_file_unrecognized_mode (E := Unix.env) appConf vim "nord" "vim" "colors"
              colors (start machine) Hrw Hrp) as [_ Hok].
  destruct (Hok "hi Normal" machine [("scheme-name", "nord")] "/home/u/.vimrc.colors"
              {| world := machine : @World Unix.env;
                 trace := trace downloaded ++ [Call_user_Current] |}
              eq_refl eq_refl eq_refl) as [Hnone Hworld].
  split; [exact Hnone|]. fold r in Hworld. by rewrite Hworld.
Defined.

(** C7 on a file-key that has no target. *)
Lemma for_range_skips_empty_path_witness :
  DownloadFileToString (Env := Unix.env) (template_url vim "colors") machine
    = (("hi Normal", None), machine)
  ∧ MustacheContext (Env := Unix.env) "nord" ".vim" = ([("scheme-name", "nord")], None)
  ∧ Path (fileConfig bare_config "vim" "colors") = ""
  ∧ for_range [("colors", colors)] (render_file (E := Unix.env) bare_config vim "nord" "vim")
      (start machine) = (None, downloaded).
Proof.
  assert (DownloadFileToString (Env := Unix.env) (template_url vim "colors") machine
            = (("hi Normal", None), machine)) as Hdl by reflexivity.
  assert (MustacheContext (Env := Unix.env) "nord" ".vim"
            = ([("scheme-name", "nord")], None)) as Hctx by reflexivity.
  assert (Path (fileConfig bare_config "vim" "colors") = "") as Hpath by reflexivity.
  repeat (split; [done|]).
  destruct (for_range_skips_empty_path (E := Unix.env) bare_config vim "nord" "vim" "colors"
              colors [] (start machine) "hi Normal" machine [("scheme-name", "nord")]
              Hdl Hctx) as [_ Hskip].
  rewrite (Hskip Hpath). reflexivity.
Defined.

(** C3, as stated, fails: with dry-run disabled the hook [false] runs and
    fails, and [Base16Render] returns no error. *)
Lemma Base16Render_hook_failure_not_surfaced :
  let appConf := vim_config false (target "~/.vimrc.colors" "rewrite") "false" in
  let s1 := (for_range (Files vim) (render_file (E := Unix.env) appConf vim "nord" "vim")
               (entering vim (start machine))).2 in
  let r := Base16Render (E := Unix.env) appConf vim "nord" "vim" (start machine) in
  DryRun appConf = false
  ∧ Hook (application appConf "vim") = "false"
  ∧ (exe_cmd (Env := Unix.env) "false" (world s1)).1 = Some "exit status 1"
  ∧ Unix.executed (world r.2) = ["false"]
  ∧ r.1 = None.
Proof. by vm_compute. Qed.

(** C3, amended, on the same run. *)
Lemma Base16Render_hook_outcome_dropped_witness :
  let appConf := vim_config false (target "~/.vimrc.colors" "rewrite") "false" in
  let files := for_range (Files vim) (render_file (E := Unix.env) appConf vim "nord" "vim")
                 (entering vim (start machine)) in
  DryRun appConf = false
  ∧ files.1 = None
  ∧ (Base16Render (E := Unix.env) appConf vim "nord" "vim" (start machine)).1 = None.
Proof.
  intros appConf files.
  assert (DryRun appConf = false) as Hdry by reflexivity.
  assert (files.1 = None) as Hfiles by (by vm_compute).
  repeat (split; [done|]).
  destruct (Base16Render_hook_outcome_dropped (E := Unix.env) appConf vim "nord" "vim"
              (start machine) files.2 Hdry (pair_eta files None Hfiles)) as [Hany _].
  by rewrite (Hany _ _ (surjective_pairing _)).
Defined.

(** C2, as stated, fails: [kitty] and [vim] are both enabled, the map is
    visited [kitty] first, the file of [kitty] cannot be downloaded, and
    [run] returns that error without rendering [vim], which alone renders
    without error. *)
Lemma run_applications_error_abandons_others :
  let entries := [("kitty", kitty_app); ("vim", vim_app)] in
  let r := run_applications (E := Unix.env) two_apps templates "nord" entries (start machine) in
  range_order two_apps entries
  ∧ Enabled vim_app = true
  ∧ r.1 = Some ("rendering file: could not download template file: " +:+
                "GET https://example.org/kitty/templates/theme.mustache: 404 Not Found")
  ∧ trace r.2 =
      [Call_Find "kitty";
       Println ["[RENDER]: Rendering template " +:+ dquote +:+ "kitty" +:+ dquote];
       Call_Download "https://example.org/kitty/templates/theme.mustache"]
  ∧ (run_applications (E := Unix.env) two_apps templates "nord" [("vim", vim_app)]
       (start machine)).1 = None.
Proof.
  intros entries r. split; [|by vm_compute].
  unfold range_order.
  assert (map_to_list (Applications two_apps) = entries) as -> by (by vm_compute).
  done.
Qed.

(** C2, amended, on the same run. *)
Lemma run_applications_first_error_witness :
  let rendered := Base16Render (E := Unix.env) two_apps kitty "nord" "kitty"
                    {| world := machine : @World Unix.env; trace := [Call_Find "kitty"] |} in
  let err := "could not download template file: " +:+
             "GET https://example.org/kitty/templates/theme.mustache: 404 Not Found" in
  rendered.1 = Some err
  ∧ run_applications (E := Unix.env) two_apps templates "nord"
      [("kitty", kitty_app); ("vim", vim_app)] (start machine)
    = (Some (Errorf "rendering file: " err), rendered.2).
Proof.
  intros rendered err.
  assert (rendered.1 = Some err) as Hrendered by (by vm_compute).
  split; [done|].
  destruct (run_applications_first_error (E := Unix.env) two_apps templates "nord")
    as [_ Hrun].
  exact (Hrun [] "kitty" kitty_app [("vim", vim_app)] (start machine) false (start machine)
           kitty machine err rendered.2 eq_refl eq_refl eq_refl
           (pair_eta rendered (Some err) Hrendered)).
Defined.

End RenderRuns.

(** * Beyond the specification: what the code calls, and when *)

(** The calls [Base16Render] may make: prints, the download, what
    [getSavePath] calls, the two writes and the hook; in a dry run, neither
    a write nor the hook. *)
Definition render_may (dryRun : bool) (e : event) : bool :=
  match e with
  | Println _ | Call_user_Current | Call_MkdirAll _ | Call_Download _ => true
  | Call_WriteFile _ _ | Call_ReplaceMultiline _ _ _ _ | Call_exe_cmd _ => negb dryRun
  | _ => false
  end.

(** The calls [run] may make once it has the configuration [appConf]:
    the configuration is shown, a cache deleted and the lists updated only
    under the flag that asks for it, and the deletions are those of the
    configured paths; the one scheme looked up is the one of the flag, or
    of the configuration when the flag is empty; the rest is what
    [Base16Render] may call. *)
Definition run_may (flags : Flags) (appConf : SetterConfig) (e : event) : bool :=
  match e with
  | Printf _ | Eprintf _ =>
      clearListFlag flags || clearSchemesFlag flags || clearTemplatesFlag flags
  | Call_NewConfig _ => false
  | Call_Show => printConfigFlag flags
  | Call_Remove p =>
      clearListFlag flags
      && bool_decide (p = SchemesListFile appConf ∨ p = TemplatesListFile appConf)
  | Call_RemoveAll p =>
      clearSchemesFlag flags && bool_decide (p = SchemesCachePath appConf)
      || clearTemplatesFlag flags && bool_decide (p = TemplatesCachePath appConf)
  | Call_LoadSchemes | Call_LoadTemplates | Call_Find _ => true
  | Call_UpdateSchemes | Call_UpdateTemplates => updateFlag flags
  | Call_FindScheme name =>
      bool_decide (name = if decide (schemeFlag flags = "")
                          then Colorscheme appConf else schemeFlag flags)
  | _ => render_may (DryRun appConf) e
  end.

Section Footprint.
Context {E : Env}.

(** [adds] at one state. *)
Definition adds_from (P : event → Prop) {A} (m : M A) (s : State) : Prop :=
  ∃ evs, trace (m s).2 = trace s ++ evs ∧ Forall P evs.

Lemma adds_Printf (P : event → Prop) (text : string) :
  P (Printf text) → adds P (fmt_Printf text).
Proof. intros He s. exists [Printf text]. split; [done|]. by constructor. Qed.

Lemma adds_Eprintf (P : event → Prop) (text : string) :
  P (Eprintf text) → adds P (fmt_Eprintf text).
Proof. intros He s. exists [Eprintf text]. split; [done|]. by constructor. Qed.

Lemma adds_report (P : event → Prop) (err : option error) (deleted failed : string) :
  (∀ text, P (Printf text)) → (∀ text, P (Eprintf text)) →
  adds P (report err deleted failed).
Proof. intros Hp He. destruct err; [by apply adds_Eprintf | by apply adds_Printf]. Qed.

Lemma adds_weaken (P Q : event → Prop) {A} (m : M A) :
  (∀ e, P e → Q e) → adds P m → adds Q m.
Proof.
  intros HPQ Hm s. destruct (Hm s) as (evs & Ht & HP).
  exists evs. split; [done|]. by eapply Forall_impl.
Qed.

Lemma adds_from_bind (P : event → Prop) {A B} (m : M A) (k : A → M B) (s : State) :
  adds_from P m s → adds_from P (k (m s).1) (m s).2 → adds_from P (m ≫= k) s.
Proof.
  intros (evs1 & Ht1 & HP1) (evs2 & Ht2 & HP2).
  unfold adds_from, mbind, M_bind. cbv beta.
  destruct (m s) as [a s1]. cbn [fst snd] in *.
  exists (evs1 ++ evs2). rewrite Ht2, Ht1, app_assoc. split; [done|].
  by apply Forall_app.
Qed.

End Footprint.

(** One step of a proof that a computation adds only calls of some kind. *)
Ltac adds_step :=
  lazymatch goal with
  | |- adds _ (mret _) => apply adds_ret
  | |- adds _ (mbind _ _) => apply adds_bind; [|intros ?]
  | |- adds _ (call _ _) => apply adds_call
  | |- adds _ (fmt_Println _) => apply adds_Println
  | |- adds _ (fmt_Printf _) => apply adds_Printf
  | |- adds _ (fmt_Eprintf _) => apply adds_Eprintf
  | |- adds _ (report _ _ _) => apply adds_report; [intros ?|intros ?]
  | |- adds _ (getSavePath _ _) => apply adds_getSavePath; [|intros ?]
  | |- adds _ (for_range _ _) => apply adds_for_range; intros ? ?
  | |- adds _ (if ?b then _ else _) => destruct b eqn:?
  | |- adds _ (match ?x with _ => _ end) => destruct x eqn:?
  end.

Section RenderFootprint.
Context {E : Env}.

Lemma render_file_may (appConf : SetterConfig) (templ : Base16Template)
    (scheme : Base16Colorscheme) (app k : string) (v : TemplateFile) :
  adds (λ e, render_may (DryRun appConf) e = true)
       (render_file appConf templ scheme app k v).
Proof.
  unfold render_file. cbv zeta.
  destruct (DryRun appConf) eqn:Hdry; repeat adds_step; done.
Qed.

Lemma Base16Render_may (appConf : SetterConfig) (templ : Base16Template)
    (scheme : Base16Colorscheme) (app : string) :
  adds (λ e, render_may (DryRun appConf) e = true)
       (Base16Render appConf templ scheme app).
Proof.
  unfold Base16Render.
  adds_step; [by adds_step|]. adds_step; [adds_step; apply render_file_may|].
  destruct (DryRun appConf) eqn:Hdry; repeat adds_step; done.
Qed.

(** X1.  Every call [Base16Render] makes is a print, a download, a home
    lookup, an [os.MkdirAll], a write or the hook; and in a dry run it is
    neither a write ([WriteFile], [ReplaceMultiline]) nor the hook. *)
Theorem Base16Render_footprint (appConf : SetterConfig) (templ : Base16Template)
    (scheme : Base16Colorscheme) (app : string) :
  adds (λ e, render_may (DryRun appConf) e = true
             ∧ (DryRun appConf = true → is_write e = false ∧ is_hook e = false))
       (Base16Render appConf templ scheme app).
Proof.
  eapply adds_weaken; [|apply Base16Render_may].
  intros e He. split; [done|]. intros Hdry. rewrite Hdry in He. by destruct e.
Qed.

End RenderFootprint.

Section RunFootprint.
Context {E : Env}.

Lemma render_may_run_may (flags : Flags) (appConf : SetterConfig) (e : event) :
  render_may (DryRun appConf) e = true → run_may flags appConf e = true.
Proof. by destruct e. Qed.

Lemma range_Applications_may (flags : Flags) (appConf : SetterConfig)
    (templateList : Base16TemplateList) (scheme : Base16Colorscheme)
    (entries : list (string * AppConfig)) (templateEnabled : bool) :
  adds (λ e, run_may flags appConf e = true)
       (range_Applications appConf templateList scheme entries templateEnabled).
Proof.
  revert templateEnabled.
  induction entries as [|[app appConfig] rest IH]; intros templateEnabled; simpl.
  - apply adds_ret.
  - destruct (Enabled appConfig); [|apply IH].
    adds_step; [by adds_step|].
    repeat adds_step; try apply IH.
    eapply adds_weaken; [apply render_may_run_may | apply Base16Render_may].
Qed.

Lemma run_applications_may (flags : Flags) (appConf : SetterConfig)
    (templateList : Base16TemplateList) (scheme : Base16Colorscheme)
    (entries : list (string * AppConfig)) :
  adds (λ e, run_may flags appConf e = true)
       (run_applications appConf templateList scheme entries).
Proof.
  unfold run_applications.
  adds_step; [apply range_Applications_may|]. repeat adds_step; done.
Qed.

Lemma run_configured_may (flags : Flags)
    (range_of : gmap string AppConfig → list (string * AppConfig))
    (appConf : SetterConfig) :
  adds (λ e, run_may flags appConf e = true) (run_configured flags range_of appConf).
Proof.
  unfold run_configured.
  repeat first [apply run_applications_may | adds_step];
    cbn [run_may render_may];
    repeat match goal with
           | H : ?b = true |- context [?b] => rewrite H
           | H : decide _ = _ |- _ => rewrite H
           end;
    repeat match goal with
           | |- context [bool_decide (?x = ?x)] =>
               rewrite (bool_decide_eq_true_2 (x = x)) by done
           end;
    rewrite ?orb_true_r, ?bool_decide_eq_true_2 by tauto; done.
Qed.

(** X2.  Every call [main] makes is the reading of the configuration
    file named by the flag, a call [run_may] allows for the configuration
    read, or the print of the error of [run] on the standard error.  So
    [main] deletes a cache or updates the lists only under the flag that
    asks for it, looks up no other scheme than the selected one, and in a
    dry run calls neither [WriteFile], [ReplaceMultiline] nor the hook. *)
Theorem main_footprint (flags : Flags)
    (range_of : gmap string AppConfig → list (string * AppConfig)) (s : State) :
  let appConf := (NewConfig (configFileFlag flags) (world s)).1.1 in
  adds_from (λ e, e = Call_NewConfig (configFileFlag flags)
                  ∨ (∃ err, e = Eprintf ("Error: " +:+ err +:+ newline))
                  ∨ run_may flags appConf e = true)
            (main flags range_of) s.
Proof.
  intros appConf. unfold main. apply adds_from_bind.
  - unfold run. apply adds_from_bind.
    + apply adds_call. by left.
    + unfold call at 1 2. subst appConf.
      destruct (NewConfig _ _) as [[appConf [err|]] w]; cbn [fst snd].
      * apply adds_ret.
      * eapply adds_weaken; [|apply run_configured_may]. intros e He. by right; right.
  - destruct (run flags range_of s) as [[err|] s']; cbn [fst snd]; [|apply adds_ret].
    apply adds_Eprintf. right; left. by exists err.
Qed.

End RunFootprint.

Section MoreOfGetSavePath.
Context {E : Env}.

(** X3.  [getSavePath] calls nothing but [user.Current] and
    [os.MkdirAll]; and for a spec that neither starts with a tilde nor
    ends in a slash it calls nothing at all: the state is left as it
    was. *)
Theorem getSavePath_footprint (path d : string) :
  adds (λ e, e = Call_user_Current ∨ ∃ p, e = Call_MkdirAll p) (getSavePath path d)
  ∧ (first_byte_is path "~" = false → HasSuffix path "/" = false →
     ∀ s, (getSavePath path d s).2 = s).
Proof.
  split.
  - apply adds_getSavePath; [by left|]. intros p. right. by exists p.
  - intros Htilde Hsuf s. destruct (decide (path = "")) as [->|Hne]; [done|].
    rewrite (getSavePath_known path d s {| HomeDir := "" |} s Hne), Hsuf; [done|].
    unfold home_known. by rewrite Htilde.
Qed.

(** X4.  When [os.MkdirAll] fails on the directory of a spec ending in a
    slash, [getSavePath] returns that error behind the words [could not
    create folder] and the empty path; the default file name is not
    joined, and nothing else is called. *)
Theorem getSavePath_mkdir_fails (path d : string) (s : State) (usr : User) (s1 : State)
    (err : error) (w2 : World) :
  HasSuffix path "/" = true →
  home_known path s usr s1 →
  os_MkdirAll (resolve_spec (HomeDir usr) path) (world s1) = (Some err, w2) →
  getSavePath path d s =
    (("", Some (Errorf "could not create folder: " err)),
     {| world := w2;
        trace := trace s1 ++ [Call_MkdirAll (resolve_spec (HomeDir usr) path)] |}).
Proof.
  intros Hsuf Hhome Hmk.
  assert (path ≠ "") as Hne by (by apply (HasSuffix_nonempty path "/")).
  rewrite (getSavePath_known path d s usr s1 Hne Hhome), Hsuf.
  unfold in_directory. by rewrite Hmk.
Qed.

End MoreOfGetSavePath.

Section MoreOfRender.
Context {E : Env}.

Lemma render_file_no_hook (appConf : SetterConfig) (templ : Base16Template)
    (scheme : Base16Colorscheme) (app k : string) (v : TemplateFile) :
  adds (λ e, is_hook e = false) (render_file appConf templ scheme app k v).
Proof. unfold render_file. cbv zeta. repeat adds_step; done. Qed.

(** X5.  When [Base16Render] returns an error it has not run the hook:
    no call it made is a call of [exe_cmd]. *)
Theorem Base16Render_error_no_hook (appConf : SetterConfig) (templ : Base16Template)
    (scheme : Base16Colorscheme) (app : string) (s : State) :
  (Base16Render appConf templ scheme app s).1 ≠ None →
  adds_from (λ e, is_hook e = false) (Base16Render appConf templ scheme app) s.
Proof.
  unfold adds_from. rewrite Base16Render_unfold.
  destruct (adds_for_range (λ e, is_hook e = false) (Files templ)
              (render_file appConf templ scheme app)
              (render_file_no_hook appConf templ scheme app) (entering templ s))
    as (evs & Ht & Hevs).
  destruct (for_range _ _ _) as [[err|] s1]; cbn [fst snd] in *.
  - intros _. eexists (_ :: evs). rewrite Ht. unfold entering. cbn [trace].
    rewrite <- app_assoc. split; [done|]. by constructor.
  - by destruct (DryRun appConf).
Qed.

(** X6.  With dry-run disabled, a file-key in [rewrite] mode whose
    download, context and destination succeed is written by one call
    [WriteFile(savePath, mustache.Render(data, context))], after the line
    that announces it; the outcome of the write is the outcome of the
    file-key, its error not wrapped. *)
Theorem render_file_rewrite (appConf : SetterConfig) (templ : Base16Template)
    (scheme : Base16Colorscheme) (app k : string) (v : TemplateFile) (s : State)
    (data : string) (w1 : World) (ctx : MustacheCtx) (savePath : string) (s2 : State)
    (err : option error) (w3 : World) :
  DryRun appConf = false →
  Mode (fileConfig appConf app k) = "rewrite" →
  DownloadFileToString (template_url templ k) (world s) = ((data, None), w1) →
  MustacheContext scheme (Extension v) = (ctx, None) →
  getSavePath (Path (fileConfig appConf app k)) (k +:+ Extension v)
    {| world := w1; trace := trace s ++ [Call_Download (template_url templ k)] |}
    = ((savePath, None), s2) →
  savePath ≠ "" →
  WriteFile savePath (mustache_Render data ctx) (world s2) = (err, w3) →
  render_file appConf templ scheme app k v s =
    (err, {| world := w3;
             trace := trace s2 ++ [Println ["     - writing: "; savePath];
                                   Call_WriteFile savePath (mustache_Render data ctx)] |}).
Proof.
  intros Hdry Hmode Hdl Hctx Hsave Hne Hwrite.
  unfold render_file, mbind, M_bind, call, fmt_Println. fold (template_url templ k).
  rewrite Hdl, Hctx, Hsave, Hdry, Hmode.
  destruct (decide (savePath = "")); [done|].
  destruct (decide ("rewrite" = "rewrite")); [|done].
  cbn [world trace]. rewrite Hwrite. by rewrite <- app_assoc.
Qed.

(** X7.  With dry-run disabled, a file-key in [replace] mode whose
    download, context and destination succeed is handed to one call of
    [ReplaceMultiline] with the rendered text and the two markers of its
    configuration as they are, empty or not; the outcome of that call is
    the outcome of the file-key. *)
Theorem render_file_replace (appConf : SetterConfig) (templ : Base16Template)
    (scheme : Base16Colorscheme) (app k : string) (v : TemplateFile) (s : State)
    (data : string) (w1 : World) (ctx : MustacheCtx) (savePath : string) (s2 : State)
    (err : option error) (w3 : World) :
  DryRun appConf = false →
  Mode (fileConfig appConf app k) = "replace" →
  DownloadFileToString (template_url templ k) (world s) = ((data, None), w1) →
  MustacheContext scheme (Extension v) = (ctx, None) →
  getSavePath (Path (fileConfig appConf app k)) (k +:+ Extension v)
    {| world := w1; trace := trace s ++ [Call_Download (template_url templ k)] |}
    = ((savePath, None), s2) →
  savePath ≠ "" →
  let startMarker := StartMarker (fileConfig appConf app k) in
  let endMarker := EndMarker (fileConfig appConf app k) in
  ReplaceMultiline savePath (mustache_Render data ctx) startMarker endMarker (world s2)
    = (err, w3) →
  render_file appConf templ scheme app k v s =
    (err, {| world := w3;
             trace := trace s2 ++
               [Println ["     - replacing in: "; savePath];
                Call_ReplaceMultiline savePath (mustache_Render data ctx)
                  startMarker endMarker] |}).
Proof.
  intros Hdry Hmode Hdl Hctx Hsave Hne startMarker endMarker Hreplace.
  unfold render_file, mbind, M_bind, call, fmt_Println. fold (template_url templ k).
  rewrite Hdl, Hctx, Hsave, Hdry, Hmode.
  destruct (decide (savePath = "")); [done|].
  destruct (decide ("replace" = "rewrite")); [done|].
  destruct (decide ("replace" = "replace")); [|done].
  cbn [world trace]. fold startMarker endMarker. rewrite Hreplace. by rewrite <- app_assoc.
Qed.

End MoreOfRender.

Section MoreOfRun.
Context {E : Env}.

(** [reaches e m]: from any state, [m] makes the call [e]. *)
Definition reaches (e : event) {A} (m : M A) : Prop := ∀ s, e ∈ trace (m s).2.

Lemma reaches_bind_r (e : event) {A B} (m : M A) (k : A → M B) :
  (∀ a, reaches e (k a)) → reaches e (m ≫= k).
Proof.
  intros Hk s. unfold mbind, M_bind. cbv beta.
  destruct (m s) as [a s1]. apply Hk.
Qed.

Lemma reaches_bind_l (e : event) {A B} (m : M A) (k : A → M B) :
  reaches e m → (∀ a, adds (λ _, True) (k a)) → reaches e (m ≫= k).
Proof.
  intros Hm Hk s. unfold mbind, M_bind. cbv beta.
  specialize (Hm s). destruct (m s) as [a s1].
  destruct (Hk a s1) as (evs & -> & _). apply elem_of_app. by left.
Qed.

Lemma reaches_call (e : event) {A} (op : World → A * World) : reaches e (call e op).
Proof.
  intros s. unfold call. destruct (op (world s)) as [a w]. cbn [snd trace].
  apply elem_of_app. right. by left.
Qed.

(** X8.  When no entry is enabled (the empty configuration included) the
    loop of [run] calls nothing: [run] prints [No templates enabled] and
    returns no error. *)
Theorem run_applications_none_enabled (appConf : SetterConfig)
    (templateList : Base16TemplateList) (scheme : Base16Colorscheme)
    (entries : list (string * AppConfig)) (s : State) :
  Forall (λ entry, Enabled entry.2 = false) entries →
  run_applications appConf templateList scheme entries s =
    (None, {| world := world s; trace := trace s ++ [Println ["No templates enabled"]] |}).
Proof.
  intros Hnone.
  assert (range_Applications appConf templateList scheme entries false s
            = ((None, false), s)) as Hloop.
  { induction Hnone as [|[app appConfig] rest Hoff _ IH]; [done|].
    simpl in *. by rewrite Hoff. }
  unfold run_applications, mbind, M_bind. by rewrite Hloop.
Qed.

(** X9.  An enabled application is rendered with the template named in
    its configuration, or named as the application when that name is
    empty.  When that template is not found, [run] returns the error
    behind the words [finding template], with the name, from the state the
    lookup left: the application is not rendered and no later entry is
    visited. *)
Theorem run_applications_template_not_found (appConf : SetterConfig)
    (templateList : Base16TemplateList) (scheme : Base16Colorscheme)
    (visited unvisited : list (string * AppConfig)) (app : string) (appConfig : AppConfig)
    (s s1 : State) (flag : bool) (tmpl : Base16Template) (err : error) (w2 : World) :
  range_Applications appConf templateList scheme visited false s = ((None, flag), s1) →
  Enabled appConfig = true →
  let name := if decide (Template appConfig = "") then app else Template appConfig in
  Find templateList name (world s1) = ((tmpl, Some err), w2) →
  run_applications appConf templateList scheme (visited ++ (app, appConfig) :: unvisited) s
    = (Some (Errorf ("finding template " +:+ name +:+ ": ") err),
       {| world := w2; trace := trace s1 ++ [Call_Find name] |}).
Proof.
  intros Hvisited Henabled name Hfind.
  unfold run_applications, mbind, M_bind.
  rewrite range_Applications_app, Hvisited. simpl. fold name. rewrite Henabled.
  unfold mbind, M_bind, call. by rewrite Hfind.
Qed.

Lemma for_range_ext {K V} (entries : list (K * V)) (body body' : K → V → M (option error)) :
  (∀ k v s, (k, v) ∈ entries → body k v s = body' k v s) →
  ∀ s, for_range entries body s = for_range entries body' s.
Proof.
  induction entries as [|[k v] rest IH]; intros Hbody s; simpl; [done|].
  unfold mbind, M_bind. rewrite (Hbody k v s) by left.
  destruct (body' k v s) as [[err|] s1]; [done|].
  apply IH. intros k' v' s' Hin. apply Hbody. by right.
Qed.

(** X10.  Of the configuration, [Base16Render] reads the dry-run flag, the
    hook of the application and the targets of the file-keys of the
    template, and nothing else: two configurations that agree on these
    render alike.  A target for a file-key the template does not have, and
    the settings of other applications, are never looked at. *)
Theorem Base16Render_reads (appConf appConf' : SetterConfig) (templ : Base16Template)
    (scheme : Base16Colorscheme) (app : string) (s : State) :
  DryRun appConf = DryRun appConf' →
  Hook (application appConf app) = Hook (application appConf' app) →
  (∀ k v, (k, v) ∈ Files templ → fileConfig appConf app k = fileConfig appConf' app k) →
  Base16Render appConf templ scheme app s = Base16Render appConf' templ scheme app s.
Proof.
  intros Hdry Hhook Hfiles. rewrite !Base16Render_unfold, Hdry, Hhook.
  rewrite (for_range_ext (Files templ) (render_file appConf templ scheme app)
             (render_file appConf' templ scheme app)); [done|].
  intros k v s' Hin. unfold render_file. by rewrite (Hfiles k v Hin), Hdry.
Qed.

(** X11.  Once the configuration is read, [run] always goes on to load
    the list of schemes: neither the flags nor a failure to show the
    configuration, to delete a cache or to create the cache directories
    stops it. *)
Theorem run_reaches_scheme_list (flags : Flags)
    (range_of : gmap string AppConfig → list (string * AppConfig)) (s : State)
    (appConf : SetterConfig) (w : World) :
  NewConfig (configFileFlag flags) (world s) = ((appConf, None), w) →
  Call_LoadSchemes ∈ trace (run flags range_of s).2.
Proof.
  intros Hconf. unfold run, mbind at 1, M_bind at 1, call at 1. rewrite Hconf.
  generalize {| world := w; trace := trace s ++ [Call_NewConfig (configFileFlag flags)] |}.
  change (reaches Call_LoadSchemes (run_configured flags range_of appConf)).
  unfold run_configured.
  do 6 (apply reaches_bind_r; intros ?).
  apply reaches_bind_l; [apply reaches_call|]. intros [schemeList err].
  repeat first
    [ eapply adds_weaken; [|apply (run_applications_may flags)]; done
    | adds_step ]; done.
Qed.

End MoreOfRun.

(** ** The further properties on concrete runs *)

Module MoreRuns.
Import Runs.

(** The flags of a plain run that reads the configuration of [machine]. *)
Definition plain_flags : Flags :=
  {| updateFlag := false; clearListFlag := false; clearTemplatesFlag := false;
     clearSchemesFlag := false; configFileFlag := "/home/u/config.yaml";
     printConfigFlag := false; schemeFlag := "" |}.

(** The state after the file of [vim] is downloaded and the home looked up. *)
Definition resolved : run_state :=
  {| world := machine : @World Unix.env;
     trace := trace downloaded ++ [Call_user_Current] |}.

(** A disabled application. *)
Definition disabled_app : AppConfig :=
  {| Enabled := false; Template := ""; Hook := "true"; AppFiles := ∅ |}.

(** [vim] with a target for a file-key its template does not have, beside
    another application. *)
Definition crowded_config (colors : FileConfig) (hook : string) : SetterConfig :=
  config false
    {[ "vim" := {| Enabled := true; Template := ""; Hook := hook;
                   AppFiles := {[ "colors" := colors;
                                  "unused" := target "/etc/motd" "rewrite" ]} |};
       "kitty" := kitty_app ]}.

End MoreRuns.

Section MoreRunsProperties.
Import Runs MoreRuns.

(** X4 on a directory spec whose directory is a regular file. *)
Lemma getSavePath_mkdir_fails_witness :
  HasSuffix "/cache/schemeslist.yaml/" "/" = true
  ∧ (getSavePath (E := Unix.env) "/cache/schemeslist.yaml/" "colors.vim" (start machine)).1
    = ("", Some ("could not create folder: " +:+
                 "mkdir /cache/schemeslist.yaml/: not a directory")).
Proof.
  split; [done|].
  by rewrite (getSavePath_mkdir_fails (E := Unix.env) "/cache/schemeslist.yaml/" "colors.vim"
                (start machine) {| HomeDir := "" |} (start machine)
                "mkdir /cache/schemeslist.yaml/: not a directory" machine
                eq_refl eq_refl eq_refl).
Defined.

(** X5 on the template whose file cannot be downloaded. *)
Lemma Base16Render_error_no_hook_witness :
  (Base16Render (E := Unix.env) two_apps kitty "nord" "kitty" (start machine)).1 ≠ None
  ∧ adds_from (E := Unix.env) (λ e, is_hook e = false)
      (Base16Render (E := Unix.env) two_apps kitty "nord" "kitty") (start machine).
Proof.
  assert ((Base16Render (E := Unix.env) two_apps kitty "nord" "kitty" (start machine)).1
            ≠ None) as Herr by (by vm_compute).
  split; [done|]. by apply (Base16Render_error_no_hook (E := Unix.env)).
Defined.

(** X6 on the [vim] template written to [~/.vimrc.colors]. *)
Lemma render_file_rewrite_witness :
  let appConf := vim_config false (target "~/.vimrc.colors" "rewrite") "" in
  let r := render_file (E := Unix.env) appConf vim "nord" "vim" "colors" colors
             (start machine) in
  DryRun appConf = false
  ∧ Mode (fileConfig appConf "vim" "colors") = "rewrite"
  ∧ r.1 = None
  ∧ Unix.files (world r.2) !! "/home/u/.vimrc.colors" = Some "hi Normal".
Proof.
  intros appConf r. split; [done|]. split; [done|].
  pose proof (render_file_rewrite (E := Unix.env) appConf vim "nord" "vim" "colors" colors
                (start machine) "hi Normal" machine [("scheme-name", "nord")]
                "/home/u/.vimrc.colors" resolved None
                (Unix.Write "/home/u/.vimrc.colors" "hi Normal" machine).2
                eq_refl eq_refl eq_refl eq_refl eq_refl ltac:(discriminate) eq_refl) as Hr.
  fold r in Hr. rewrite Hr. split; [done|]. by vm_compute.
Defined.

(** X7 on a target in replace mode whose file does not exist: the error
    of [ReplaceMultiline] comes back as it is. *)
Lemma render_file_replace_witness :
  let colors_target :=
    {| Path := "~/.vimrc"; Mode := "replace"; StartMarker := "START"; EndMarker := "END" |} in
  let appConf := vim_config false colors_target "" in
  DryRun appConf = false
  ∧ Mode (fileConfig appConf "vim" "colors") = "replace"
  ∧ render_file (E := Unix.env) appConf vim "nord" "vim" "colors" colors (start machine)
    = (Some "open /home/u/.vimrc: no such file or directory",
       {| world := machine : @World Unix.env;
          trace := trace resolved ++
            [Println ["     - replacing in: "; "/home/u/.vimrc"];
             Call_ReplaceMultiline "/home/u/.vimrc" "hi Normal" "START" "END"] |}).
Proof.
  intros colors_target appConf. repeat (split; [done|]).
  exact (render_file_replace (E := Unix.env) appConf vim "nord" "vim" "colors" colors
           (start machine) "hi Normal" machine [("scheme-name", "nord")]
           "/home/u/.vimrc" resolved
           (Some "open /home/u/.vimrc: no such file or directory") machine
           eq_refl eq_refl eq_refl eq_refl eq_refl ltac:(discriminate) eq_refl).
Defined.

(** X8 on a configuration whose one application is disabled. *)
Lemma run_applications_none_enabled_witness :
  Forall (λ entry : string * AppConfig, Enabled entry.2 = false) [("vim", disabled_app)]
  ∧ run_applications (E := Unix.env) (config false {[ "vim" := disabled_app ]}) templates
      "nord" [("vim", disabled_app)] (start machine)
    = (None, {| world := machine : @World Unix.env;
                trace := [Println ["No templates enabled"]] |}).
Proof.
  assert (Forall (λ entry : string * AppConfig, Enabled entry.2 = false)
            [("vim", disabled_app)]) as Hnone by (by repeat constructor).
  split; [done|].
  exact (run_applications_none_enabled (E := Unix.env) _ templates "nord" _
           (start machine) Hnone).
Defined.

(** X9 on a list of templates that lacks [kitty]. *)
Lemma run_applications_template_not_found_witness :
  Enabled kitty_app = true
  ∧ Template kitty_app = ""
  ∧ run_applications (E := Unix.env) two_apps {[ "vim" := vim ]} "nord"
      [("kitty", kitty_app); ("vim", vim_app)] (start machine)
    = (Some "finding template kitty: template not found: kitty",
       {| world := machine : @World Unix.env; trace := [Call_Find "kitty"] |}).
Proof.
  repeat (split; [done|]).
  exact (run_applications_template_not_found (E := Unix.env) two_apps {[ "vim" := vim ]}
           "nord" [] [("vim", vim_app)] "kitty" kitty_app (start machine) (start machine)
           false {| Name := ""; RawBaseURL := ""; Files := [] |}
           "template not found: kitty" machine eq_refl eq_refl eq_refl).
Defined.

(** X10 on [vim] alone and [vim] in a crowded configuration. *)
Lemma Base16Render_reads_witness :
  let colors_target := target "~/.vimrc.colors" "rewrite" in
  Base16Render (E := Unix.env) (vim_config false colors_target "false") vim "nord" "vim"
    (start machine)
  = Base16Render (E := Unix.env) (crowded_config colors_target "false") vim "nord" "vim"
      (start machine).
Proof.
  intros colors_target.
  apply (Base16Render_reads (E := Unix.env)); [done|done|].
  intros k v Hin. apply list_elem_of_singleton in Hin as [= -> ->]. done.
Defined.

(** X11 on a plain run of [machine]. *)
Lemma run_reaches_scheme_list_witness :
  NewConfig (Env := Unix.env) "/home/u/config.yaml" machine
    = ((vim_config true (target "out/" "rewrite") "touch done", None), machine)
  ∧ Call_LoadSchemes ∈ trace (run (E := Unix.env) plain_flags map_to_list (start machine)).2.
Proof.
  assert (NewConfig (Env := Unix.env) "/home/u/config.yaml" machine
            = ((vim_config true (target "out/" "rewrite") "touch done", None), machine))
    as Hconf by reflexivity.
  split; [done|].
  exact (run_reaches_scheme_list (E := Unix.env) plain_flags map_to_list (start machine)
           _ machine Hconf).
Defined.

End MoreRunsProperties.
